(** * mini-rag: the indexing, retrieval and answer pipeline of [NLPController]

    A shallow embedding of [src/controllers/NLPController.py].  The
    controller is pure orchestration over four duck-typed collaborators
    (embedding client, vector store client, generation client, template
    parser).  Each collaborator call may change the collaborator's state and
    may raise; the embedding therefore runs in a small monad that threads
    the collaborators' state, propagates Python exceptions and records the
    sequence of collaborator calls that were issued. *)

From Stdlib Require Import ZArith Ascii String.
From stdpp Require Import base option list gmap strings pretty.

Local Open Scope Z_scope.
Local Open Scope string_scope.

(** ** Python values that cross the collaborator boundary *)

(** Exceptions: a [TypeError] raised by the interpreter itself
    ([str.join] over a non-string) or anything a collaborator raises. *)
Inductive exn :=
  | TypeError
  | ClientError (what : string).

Inductive outcome (A : Type) :=
  | Normal (a : A)
  | Raised (e : exn).
Arguments Normal {A} a.
Arguments Raised {A} e.

(** Values of a template substitution dict: [{"doc_num": idx + 1,
    "chunk_text": doc.text}] holds an int and a str. *)
Inductive pyval :=
  | PyInt (z : Z)
  | PyStr (s : string).

(** Modelled from the spec: [stores.llm.LLMEnums.DocumentTypeEnum] is not
    among the sources; the spec gives the embedding mode as one of
    {document, query}.  The controller passes [DOCUMENT.value] and
    [QUERY.value]; the two members stand for their values. *)
Inductive DocumentTypeEnum :=
  | DOCUMENT
  | QUERY.

(** ** Strings *)

(** [str.strip()] with no argument removes leading and trailing whitespace.
    Strings are byte strings here; the ASCII characters for which
    [str.isspace] holds are 9..13, 28..31 and 32. *)
Definition is_space (c : ascii) : bool :=
  let n := nat_of_ascii c in
  ((9 <=? n)%nat && (n <=? 13)%nat) || ((28 <=? n)%nat && (n <=? 32)%nat).

Fixpoint lstrip (s : string) : string :=
  match s with
  | EmptyString => EmptyString
  | String c s' => if is_space c then lstrip s' else s
  end.

Fixpoint rstrip (s : string) : string :=
  match s with
  | EmptyString => EmptyString
  | String c s' =>
      match rstrip s' with
      | EmptyString => if is_space c then EmptyString else String c EmptyString
      | r => String c r
      end
  end.

Definition strip (s : string) : string := rstrip (lstrip s).

(** [sep.join(parts)] for a list of strings. *)
Fixpoint join (sep : string) (parts : list string) : string :=
  match parts with
  | [] => ""
  | [p] => p
  | p :: rest => p ++ sep ++ join sep rest
  end.

(** The newline character of the separators ["\n"] and ["\n\n"]. *)
Definition LF : string := String "010"%char EmptyString.

(** ** Data model ([models/db_schemes]) *)

Definition ObjectId := string.

Record Project := {
  project_oid : option ObjectId;
  project_id : string
}.

Section Pipeline.

(** [scalar]: the float components of an embedding and relevance scores;
    [metadata]: the free-form chunk metadata dict; [message]: whatever the
    generation client builds for one chat turn; [W]: the joint state of
    the four collaborators. *)
Context {scalar metadata message W : Type}.

Definition vector := list scalar.

Record DataChunk := {
  chunk_oid : option ObjectId;
  chunk_text : string;
  chunk_metadata : metadata;
  chunk_order : Z;
  chunk_project_id : ObjectId;
  chunk_asset_id : ObjectId
}.

Record RetrievedDocument := {
  text : string;
  score : scalar
}.

(** ** Collaborator calls *)

Inductive Call :=
  | embed_text_call (txt : string) (document_type : DocumentTypeEnum)
  | create_collection_call (collection_name : string)
      (size : option Z) (do_reset : bool)
  | insert_many_call (collection_name : string) (texts : list string)
      (metadatas : list metadata) (vectors : list (option vector))
      (record_ids : list Z)
  | search_by_vector_call (collection_name : string) (v : vector) (limit : Z)
  | delete_collection_call (collection_name : string)
  | template_get_call (group key : string)
      (vars : option (list (string * pyval)))
  | construct_prompt_call (prompt : option string) (role : string)
  | generate_text_call (prompt : string) (chat_history : list message).

(** What came back from a call. *)
Inductive Reply :=
  | vector_reply (v : option vector)
  | bool_reply (b : bool)
  | documents_reply (docs : option (list RetrievedDocument))
  | text_reply (s : option string)
  | message_reply (m : message)
  | raised_reply (e : exn).

(** One entry of the transcript: the call issued and its reply. *)
Definition Event : Type := Call * Reply.

Definition calls (t : list Event) : list Call := fst <$> t.

(** The result of running a piece of controller code from a state of the
    collaborators: how it ended, the state it left, the transcript of the
    collaborator calls it made. *)
Record result (A : Type) := Res {
  out : outcome A;
  st : W;
  tr : list Event
}.
Arguments Res {A} out st tr.
Arguments out {A} r.
Arguments st {A} r.
Arguments tr {A} r.

Definition M (A : Type) : Type := W → result A.

Definition ret {A} (a : A) : M A := λ w, Res (Normal a) w [].

Definition bind {A B} (m : M A) (k : A → M B) : M B := λ w,
  let r := m w in
  match out r with
  | Normal a => let r' := k a (st r) in Res (out r') (st r') (tr r ++ tr r')
  | Raised e => Res (Raised e) (st r) (tr r)
  end.

Definition raise {A} (e : exn) : M A := λ w, Res (Raised e) w [].

Definition reply_of {A} (rep : A → Reply) (o : outcome A) : Reply :=
  match o with
  | Normal a => rep a
  | Raised e => raised_reply e
  end.

(** A call into a collaborator: the collaborator runs from the current
    state; the call and what it answered go to the transcript. *)
Definition call {A} (c : Call) (rep : A → Reply) (f : W → outcome A * W)
    : M A := λ w,
  Res (f w).1 (f w).2 [(c, reply_of rep (f w).1)].

(** Reading an attribute of a collaborator. *)
Definition attr {A} (f : W → A) : M A := λ w, Res (Normal (f w)) w [].

#[global] Instance M_ret : MRet M := @ret.
#[global] Instance M_bind : MBind M := λ A B k m, bind m k.

(** [sep.join(parts)] where a part may be [None]: Python raises
    [TypeError] on a part that is not a string. *)
Fixpoint all_str (parts : list (option string)) : option (list string) :=
  match parts with
  | [] => Some []
  | None :: _ => None
  | Some p :: rest =>
      match all_str rest with
      | Some ps => Some (p :: ps)
      | None => None
      end
  end.

Definition str_join (sep : string) (parts : list (option string))
    : M string :=
  match all_str parts with
  | Some ps => ret (join sep ps)
  | None => raise TypeError
  end.

(** [enumerate(l)] *)
Definition enumerate {A} (l : list A) : list (Z * A) :=
  imap (λ i x, (Z.of_nat i, x)) l.

(** ** The collaborators' interfaces, as the controller uses them *)

Record EmbeddingClient := {
  embed_text : string → DocumentTypeEnum → W →
               outcome (option vector) * W;
  embedding_size : W → option Z
}.

Record VectorDBClient := {
  create_collection : string → option Z → bool → W → outcome bool * W;
  insert_many : string → list string → list metadata →
                list (option vector) → list Z → W → outcome bool * W;
  search_by_vector : string → vector → Z → W →
                     outcome (option (list RetrievedDocument)) * W;
  delete_collection : string → W → outcome bool * W
}.

Record GenerationClient := {
  enums_SYSTEM_value : string;
  construct_prompt : option string → string → W → outcome message * W;
  generate_text : string → list message → W → outcome (option string) * W
}.

Record TemplateParser := {
  get : string → string → option (list (string * pyval)) → W →
        outcome (option string) * W
}.

Record NLPController := {
  vectordb_client : VectorDBClient;
  generation_client : GenerationClient;
  embedding_client : EmbeddingClient;
  template_parser : TemplateParser
}.

(** ** [NLPController] *)

Definition create_collection_name (project_id : string) : string :=
  strip ("collection_" ++ project_id).

Definition reset_vector_db_collection (self : NLPController)
    (project : Project) : M bool :=
  let collection_name := create_collection_name (project_id project) in
  call (delete_collection_call collection_name) bool_reply
       (delete_collection (vectordb_client self) collection_name).

(** Step 3 of [index_into_vector_db]: the list comprehension that embeds
    every text, in order, in the document mode. *)
Definition embed_documents (self : NLPController) (texts : list string)
    : M (list (option vector)) :=
  mapM (λ txt, call (embed_text_call txt DOCUMENT) vector_reply
                 (embed_text (embedding_client self) txt DOCUMENT)) texts.

Definition index_into_vector_db (self : NLPController) (project : Project)
    (chunks : list DataChunk) (chunks_ids : list Z) (do_reset : bool)
    : M bool :=
  let collection_name := create_collection_name (project_id project) in
  let texts := chunk_text <$> chunks in
  let metadatas := chunk_metadata <$> chunks in
  vectors ← embed_documents self texts;
  size ← attr (embedding_size (embedding_client self));
  _ ← call (create_collection_call collection_name size do_reset)
        bool_reply
        (create_collection (vectordb_client self)
           collection_name size do_reset);
  _ ← call (insert_many_call collection_name texts metadatas vectors
              chunks_ids)
        bool_reply
        (insert_many (vectordb_client self)
           collection_name texts metadatas vectors chunks_ids);
  mret true.

(** What [search_vector_db_collection] hands back: the boolean [False] or
    the (truthy) result of the similarity search. *)
Inductive SearchResult :=
  | SFalse
  | SDocs (docs : list RetrievedDocument).

(** [not vector or len(vector) == 0], and likewise [not results]: [None]
    and the empty list are the falsy values. *)
Definition falsy {A} (v : option (list A)) : bool :=
  match v with
  | None | Some [] => true
  | Some (_ :: _) => false
  end.

Definition search_vector_db_collection (self : NLPController)
    (project : Project) (txt : string) (limit : Z) : M SearchResult :=
  let collection_name := create_collection_name (project_id project) in
  v ← call (embed_text_call txt QUERY) vector_reply
        (embed_text (embedding_client self) txt QUERY);
  match v with
  | None | Some [] => mret SFalse
  | Some v =>
      results ← call (search_by_vector_call collection_name v limit)
                  documents_reply
                  (search_by_vector (vectordb_client self)
                     collection_name v limit);
      match results with
      | None | Some [] => mret SFalse
      | Some docs => mret (SDocs docs)
      end
  end.

(** [not retrieved_documents or len(retrieved_documents) == 0] *)
Definition no_documents (r : SearchResult) : bool :=
  match r with
  | SFalse | SDocs [] => true
  | SDocs (_ :: _) => false
  end.

Definition document_vars (idx : Z) (doc : RetrievedDocument)
    : option (list (string * pyval)) :=
  Some [("doc_num", PyInt (idx + 1)); ("chunk_text", PyStr (text doc))].

Definition footer_vars (query : string) : option (list (string * pyval)) :=
  Some [("query", PyStr query)].

Definition answer_rag_question (self : NLPController) (project : Project)
    (query : string) (limit : Z)
    : M (option string * option string * option (list message)) :=
  retrieved_documents ←
    search_vector_db_collection self project query limit;
  if no_documents retrieved_documents then mret (None, None, None)
  else
    let docs := match retrieved_documents with
                | SDocs docs => docs
                | SFalse => []
                end in
    let tp := template_parser self in
    let gen := generation_client self in
    system_prompt ←
      call (template_get_call "rag" "system_prompt" None) text_reply
           (get tp "rag" "system_prompt" None);
    fragments ←
      mapM (λ '(idx, doc),
              call (template_get_call "rag" "document_prompt"
                      (document_vars idx doc)) text_reply
                   (get tp "rag" "document_prompt" (document_vars idx doc)))
           (enumerate docs);
    documents_prompts ← str_join LF fragments;
    footer_prompt ←
      call (template_get_call "rag" "footer_prompt" (footer_vars query))
           text_reply
           (get tp "rag" "footer_prompt" (footer_vars query));
    system_message ←
      call (construct_prompt_call system_prompt (enums_SYSTEM_value gen))
           message_reply
           (construct_prompt gen system_prompt (enums_SYSTEM_value gen));
    let chat_history := [system_message] in
    full_prompt ← str_join (LF ++ LF) [Some documents_prompts; footer_prompt];
    answer ←
      call (generate_text_call full_prompt chat_history) text_reply
           (generate_text gen full_prompt chat_history);
    mret (answer, Some full_prompt, Some chat_history).

End Pipeline.

Arguments Res {scalar metadata message W A} out st tr.
Arguments out {scalar metadata message W A} r.
Arguments st {scalar metadata message W A} r.
Arguments tr {scalar metadata message W A} r.

(** ** The vector store's contract *)

Section Contract.

Context {scalar metadata message W : Type}.

(** One vector record: the vector as it was handed over, the chunk text
    and the chunk metadata. *)
Record VRecord := {
  rec_vector : option (@vector scalar);
  rec_text : string;
  rec_metadata : metadata
}.

(** A collection: the dimensionality it was created with and its records,
    keyed by record id. *)
Definition Collection : Type := option Z * gmap Z VRecord.

Definition records_of (vectors : list (option (@vector scalar)))
    (texts : list string) (metadatas : list metadata) : list VRecord :=
  zip_with (λ v tm, {| rec_vector := v; rec_text := tm.1;
                       rec_metadata := tm.2 |})
           vectors (zip texts metadatas).

(** Writing records by id, in order: a record whose id is already present
    is overwritten. *)
Definition upsert (recs : gmap Z VRecord) (ids : list Z)
    (rs : list VRecord) : gmap Z VRecord :=
  foldl (λ m ir, <[ir.1 := ir.2]> m) recs (zip ids rs).

(** Modelled from the spec: the vector store client ([stores/vectordb]) is
    not among the sources.  The spec gives its contract:
    [createCollection(name, dim, reset)] destroys and recreates the
    collection when [reset] holds and creates it only if absent otherwise;
    [upsert(name, ids, vectors, texts, metadata)] writes one record per id
    and overwrites the vector, text and metadata of an id already present.
    [view] reads the collections off the collaborators' state. *)
Record honors_contract (vdb : @VectorDBClient scalar metadata W)
    (view : W → gmap string Collection) : Prop := {
  create_with_reset : ∀ name size w,
    (∃ b, (create_collection vdb name size true w).1 = Normal b) ∧
    view (create_collection vdb name size true w).2
      = <[name := (size, ∅)]> (view w);
  create_if_absent : ∀ name size w,
    (∃ b, (create_collection vdb name size false w).1 = Normal b) ∧
    view (create_collection vdb name size false w).2
      = match view w !! name with
        | Some _ => view w
        | None => <[name := (size, ∅)]> (view w)
        end;
  insert_is_upsert : ∀ name texts metadatas vectors ids w dim recs,
    view w !! name = Some (dim, recs) →
    length ids = length texts →
    length metadatas = length texts →
    length vectors = length texts →
    (∃ b, (insert_many vdb name texts metadatas vectors ids w).1
          = Normal b) ∧
    view (insert_many vdb name texts metadatas vectors ids w).2
      = <[name := (dim, upsert recs ids
                          (records_of vectors texts metadatas))]> (view w)
}.

End Contract.

(** ** Reading transcripts *)

Section Transcripts.

Context {scalar metadata message W : Type}.

#[local] Abbreviation Call := (@Call scalar metadata message).
#[local] Abbreviation Event := (@Event scalar metadata message).

(** The embedding calls of a transcript: text and mode, in order. *)
Definition embed_calls (t : list Event) : list (string * DocumentTypeEnum) :=
  omap (λ e, match e.1 with
             | embed_text_call txt mode => Some (txt, mode)
             | _ => None
             end) t.

Definition is_template_call (c : Call) : bool :=
  match c with
  | template_get_call _ _ _ => true
  | _ => false
  end.

Definition is_generation_call (c : Call) : bool :=
  match c with
  | construct_prompt_call _ _ | generate_text_call _ _ => true
  | _ => false
  end.

(** The template parser's part of a transcript. *)
Definition template_transcript (t : list Event) : list Event :=
  List.filter (λ e, is_template_call e.1) t.

(** Steps 2 to 4 of [answer_rag_question]: what runs once documents were
    retrieved. *)
Definition prompt_and_generate
    (self : @NLPController scalar metadata message W) (query : string)
    (docs : list (@RetrievedDocument scalar))
    : @M scalar metadata message W
         (option string * option string * option (list message)) :=
  let tp := template_parser self in
  let gen := generation_client self in
  system_prompt ←
    call (template_get_call "rag" "system_prompt" None) text_reply
         (get tp "rag" "system_prompt" None);
  fragments ←
    mapM (λ '(idx, doc),
            call (template_get_call "rag" "document_prompt"
                    (document_vars idx doc)) text_reply
                 (get tp "rag" "document_prompt" (document_vars idx doc)))
         (enumerate docs);
  documents_prompts ← str_join LF fragments;
  footer_prompt ←
    call (template_get_call "rag" "footer_prompt" (footer_vars query))
         text_reply
         (get tp "rag" "footer_prompt" (footer_vars query));
  system_message ←
    call (construct_prompt_call system_prompt (enums_SYSTEM_value gen))
         message_reply
         (construct_prompt gen system_prompt (enums_SYSTEM_value gen));
  let chat_history := [system_message] in
  full_prompt ← str_join (LF ++ LF) [Some documents_prompts; footer_prompt];
  answer ←
    call (generate_text_call full_prompt chat_history) text_reply
         (generate_text gen full_prompt chat_history);
  mret (answer, Some full_prompt, Some chat_history).

(** The transcript of [prompt_and_generate] when every call answers: the
    system prompt, one document prompt per document numbered from 1, the
    footer, the system message, the generation. *)
Definition assembly_transcript
    (self : @NLPController scalar metadata message W) (query : string)
    (docs : list (@RetrievedDocument scalar))
    (sys : option string) (frags : list string) (footer : string)
    (msg : message) (prompt : string) (answer : option string)
    : list Event :=
  (template_get_call "rag" "system_prompt" None, text_reply sys)
  :: zip_with (λ id frag,
                 (template_get_call "rag" "document_prompt"
                    (document_vars id.1 id.2), text_reply (Some frag)))
              (enumerate docs) frags
  ++ [(template_get_call "rag" "footer_prompt" (footer_vars query),
       text_reply (Some footer));
      (construct_prompt_call sys
         (enums_SYSTEM_value (generation_client self)), message_reply msg);
      (generate_text_call prompt [msg], text_reply answer)].

(** The shape of the assembled prompt: whenever [answer_rag_question]
    returns a prompt, retrieval had produced a non-empty list [docs], the
    template parser was asked for the system prompt, then for one document
    fragment per document, numbered from 1 in retrieval order and given
    that document's text, then for one footer given the query, and the
    prompt is [block] of the fragments and the footer. *)
Definition prompt_layout (block : list string → string → string)
    (self : @NLPController scalar metadata message W) (project : Project)
    (query : string) (limit : Z) (w : W) : Prop :=
  ∀ a p h,
    out (answer_rag_question self project query limit w)
      = Normal (a, Some p, h) →
    ∃ docs sys frags footer,
      out (search_vector_db_collection self project query limit w)
        = Normal (SDocs docs) ∧
      docs ≠ [] ∧
      length frags = length docs ∧
      template_transcript
        (tr (answer_rag_question self project query limit w))
      = ((template_get_call "rag" "system_prompt" None, text_reply sys)
         :: zip_with (λ id frag,
                        (template_get_call "rag" "document_prompt"
                           (document_vars id.1 id.2),
                         text_reply (Some frag)))
                     (enumerate docs) frags
         ++ [(template_get_call "rag" "footer_prompt" (footer_vars query),
              text_reply (Some footer))])%list ∧
      p = block frags footer.

(** Every fragment, the footer included, separated from the next by a
    blank line. *)
Definition blank_line_separated (frags : list string) (footer : string)
    : string :=
  join (LF ++ LF) (frags ++ [footer])%list.

(** The document fragments on consecutive lines, then a blank line, then
    the footer. *)
Definition documents_then_footer (frags : list string) (footer : string)
    : string :=
  join (LF ++ LF) [join LF frags; footer].

End Transcripts.

(** ** In-memory collaborators

    Stand-ins for the four collaborators, used to run the controller on
    concrete inputs. *)

Module Demo.

Definition scalar : Type := Z.
Definition metadata : Type := list (string * string).
(** A chat message: role and content. *)
Definition message : Type := string * option string.

(** The collaborators' state: the vector store's collections and the
    texts on which the embedding backend gives up. *)
Record State := {
  collections : gmap string (@Collection scalar metadata);
  unembeddable : list string
}.

Definition with_collections (w : State)
    (cs : gmap string (@Collection scalar metadata)) : State :=
  {| collections := cs; unembeddable := unembeddable w |}.

(** Modelled from the spec: an embedding provider
    [embed(text, mode) -> vector] of dimension 2 that returns no vector on
    failure. *)
Definition embedding : @EmbeddingClient scalar State := {|
  embed_text := λ txt mode w,
    (Normal (if bool_decide (txt ∈ unembeddable w) then None
             else Some [Z.of_nat (String.length txt);
                        match mode with DOCUMENT => 0 | QUERY => 1 end]),
     w);
  embedding_size := λ _, Some 2
|}.

(** Modelled from the spec: a vector store with the contract of
    [honors_contract]; the similarity search hands back the first [limit]
    records of the collection, [None] when there is no collection. *)
Definition vectordb : @VectorDBClient scalar metadata State := {|
  create_collection := λ name size do_reset w,
    let cs := if do_reset then delete name (collections w)
              else collections w in
    match cs !! name with
    | Some _ => (Normal false, with_collections w cs)
    | None => (Normal true, with_collections w (<[name := (size, ∅)]> cs))
    end;
  insert_many := λ name texts metadatas vectors ids w,
    match collections w !! name with
    | Some (dim, recs) =>
        (Normal true,
         with_collections w
           (<[name := (dim, upsert recs ids
                              (records_of vectors texts metadatas))]>
              (collections w)))
    | None => (Raised (ClientError "no such collection"), w)
    end;
  search_by_vector := λ name v limit w,
    match collections w !! name with
    | Some (_, recs) =>
        (Normal (Some (take (Z.to_nat limit)
                         ((λ ir, {| text := rec_text ir.2; score := 0 |})
                            <$> map_to_list recs))), w)
    | None => (Normal None, w)
    end;
  delete_collection := λ name w,
    (Normal true, with_collections w (delete name (collections w)))
|}.

(** Modelled from the spec: a generation backend with
    [buildMessage(text, role)] and [generate(prompt, history) -> text]. *)
Definition generation : @GenerationClient message State := {|
  enums_SYSTEM_value := "system";
  construct_prompt := λ prompt role w, (Normal (role, prompt), w);
  generate_text := λ prompt chat_history w,
    (Normal (Some ("answer to: " ++ prompt)), w)
|}.

Definition show (v : pyval) : string :=
  match v with
  | PyInt z => pretty z
  | PyStr s => s
  end.

(** Modelled from the spec: a template provider
    [render(namespace, key, vars) -> text] by pure substitution: the key
    followed by the values of the variables. *)
Definition templates : @TemplateParser State := {|
  get := λ group key vars w,
    (Normal (Some (key ++ String.concat ""
                            ((λ kv, ":" ++ show kv.2) <$> default [] vars))),
     w)
|}.

Definition controller : @NLPController scalar metadata message State := {|
  vectordb_client := vectordb;
  generation_client := generation;
  embedding_client := embedding;
  template_parser := templates
|}.

Definition p1 : Project := {| project_oid := None; project_id := "p1" |}.

Definition chunk (n : Z) (txt : string) : @DataChunk metadata := {|
  chunk_oid := None;
  chunk_text := txt;
  chunk_metadata := [("source", "a.txt")];
  chunk_order := n;
  chunk_project_id := "p1";
  chunk_asset_id := "a1"
|}.

Definition chunks3 : list (@DataChunk metadata) :=
  [chunk 1 "the cat sat"; chunk 2 "the dog ran"; chunk 3 "quantum physics"].

(** Nothing indexed yet. *)
Definition empty : State := {| collections := ∅; unembeddable := [] |}.

(** The state after indexing [chunks3] under the ids 1, 2, 3. *)
Definition indexed : State :=
  st (index_into_vector_db controller p1 chunks3 [1; 2; 3] false empty).

(** As [indexed], with an embedding backend that fails on one text. *)
Definition degraded : State :=
  {| collections := collections indexed;
     unembeddable := ["the dog ran"] |}.

Definition chunks2 : list (@DataChunk metadata) :=
  [chunk 1 "the cat sat"; chunk 2 "the dog ran"].

Definition record (v : option (@vector scalar)) (txt : string)
    : @VRecord scalar metadata :=
  {| rec_vector := v; rec_text := txt;
     rec_metadata := [("source", "a.txt")] |}.

(** What the similarity search hands back on [indexed] with limit 2. *)
Definition two_documents : list (@RetrievedDocument scalar) :=
  [{| text := "quantum physics"; score := 0 |};
   {| text := "the dog ran"; score := 0 |}].

(** The prompt [answer_rag_question] builds from [two_documents] for the
    query ["physics"]. *)
Definition physics_prompt : string :=
  "document_prompt:1:quantum physics" ++ LF ++
  "document_prompt:2:the dog ran" ++ LF ++ LF ++
  "footer_prompt:physics".

Definition physics_history : list message :=
  [("system", Some "system_prompt")].

Definition physics_answer : option string :=
  Some ("answer to: " ++ physics_prompt).

End Demo.

(** * The rest of the controllers and the storage models *)

(** ** More on strings and transcripts *)

(** [all_chars p s]: every character of [s] satisfies [p]. *)
Fixpoint all_chars (p : ascii → bool) (s : string) : bool :=
  match s with
  | EmptyString => true
  | String c s' => p c && all_chars p s'
  end.

Section MoreTranscripts.

Context {scalar metadata message W : Type}.

(** The calls that go to the vector store. *)
Definition is_vectordb_call (c : @Call scalar metadata message) : bool :=
  match c with
  | create_collection_call _ _ _ | insert_many_call _ _ _ _ _
  | search_by_vector_call _ _ _ | delete_collection_call _ => true
  | _ => false
  end.

(** The calls that change the vector store. *)
Definition is_vectordb_write (c : @Call scalar metadata message) : bool :=
  match c with
  | create_collection_call _ _ _ | insert_many_call _ _ _ _ _
  | delete_collection_call _ => true
  | _ => false
  end.

Definition is_generate_text_call (c : @Call scalar metadata message) : bool :=
  match c with
  | generate_text_call _ _ => true
  | _ => false
  end.

Definition is_construct_prompt_call (c : @Call scalar metadata message)
    : bool :=
  match c with
  | construct_prompt_call _ _ => true
  | _ => false
  end.

(** The comprehension of [answer_rag_question] that asks the template
    parser for one document prompt per retrieved document. *)
Definition document_prompts
    (self : @NLPController scalar metadata message W)
    (docs : list (@RetrievedDocument scalar))
    : @M scalar metadata message W (list (option string)) :=
  mapM (λ id, call (template_get_call "rag" "document_prompt"
                      (document_vars id.1 id.2)) text_reply
                   (get (template_parser self) "rag" "document_prompt"
                      (document_vars id.1 id.2)))
       (enumerate docs).

(** The footer request of [answer_rag_question]. *)
Definition footer_call (query : string) : @Call scalar metadata message :=
  template_get_call "rag" "footer_prompt" (footer_vars query).

(** Modelled from the spec: [deleteCollection(name)] of the vector store
    ([stores/vectordb], not among the sources) removes the collection. *)
Definition honors_delete (vdb : @VectorDBClient scalar metadata W)
    (view : W → gmap string (@Collection scalar metadata)) : Prop :=
  ∀ name w,
    (∃ b, (delete_collection vdb name w).1 = Normal b) ∧
    view (delete_collection vdb name w).2 = delete name (view w).

(** The embedding client leaves the vector store's collections alone. *)
Definition embedding_keeps (emb : @EmbeddingClient scalar W)
    (view : W → gmap string (@Collection scalar metadata)) : Prop :=
  ∀ txt mode w, view (embed_text emb txt mode w).2 = view w.

End MoreTranscripts.

(** ** An embedding backend that raises *)

Module Outage.

(** Modelled from the spec: an embedding provider as [Demo.embedding], but
    one that raises on the texts it cannot embed. *)
Definition embedding : @EmbeddingClient Demo.scalar Demo.State := {|
  embed_text := λ txt mode w,
    if bool_decide (txt ∈ Demo.unembeddable w)
    then (Raised (ClientError "embedding backend down"), w)
    else (Normal (Some [Z.of_nat (String.length txt);
                        match mode with DOCUMENT => 0 | QUERY => 1 end]),
          w);
  embedding_size := λ _, Some 2
|}.

Definition controller
    : @NLPController Demo.scalar Demo.metadata Demo.message Demo.State := {|
  vectordb_client := Demo.vectordb;
  generation_client := Demo.generation;
  embedding_client := embedding;
  template_parser := Demo.templates
|}.

End Outage.

(** ** A template parser with a gap *)

Module Gaps.

(** Modelled from the spec: a template provider as [Demo.templates] that has
    no text for the key [missing] and answers [None] for it. *)
Definition templates (missing : string) : @TemplateParser Demo.State := {|
  get := λ group key vars w,
    if String.eqb key missing then (Normal None, w)
    else get Demo.templates group key vars w
|}.

Definition controller (missing : string)
    : @NLPController Demo.scalar Demo.metadata Demo.message Demo.State := {|
  vectordb_client := Demo.vectordb;
  generation_client := Demo.generation;
  embedding_client := Demo.embedding;
  template_parser := templates missing
|}.

End Gaps.

(** ** [DataController.get_clean_file_name] *)

(** [\w] on ASCII text: letters, digits and the underscore.  (Python's [\w]
    also accepts the letters and digits beyond ASCII; the model is exact on
    ASCII file names.) *)
Definition is_word (c : ascii) : bool :=
  let n := nat_of_ascii c in
  ((48 <=? n)%nat && (n <=? 57)%nat) || ((65 <=? n)%nat && (n <=? 90)%nat)
  || ((97 <=? n)%nat && (n <=? 122)%nat) || (n =? 95)%nat.

Definition is_ascii_char (c : ascii) : bool := (nat_of_ascii c <? 128)%nat.

(** The characters [re.sub(r'[^\w.]', '', ...)] leaves in place. *)
Definition kept (c : ascii) : bool := is_word c || Ascii.eqb c ".".

(** [re.sub] of a one-character class by the empty string: the characters
    outside [keep] are deleted. *)
Fixpoint filter_chars (keep : ascii → bool) (s : string) : string :=
  match s with
  | EmptyString => EmptyString
  | String c s' =>
      if keep c then String c (filter_chars keep s') else filter_chars keep s'
  end.

(** [s.replace(old, new)] for one-character [old] and [new]. *)
Fixpoint replace_char (old new : ascii) (s : string) : string :=
  match s with
  | EmptyString => EmptyString
  | String c s' =>
      String (if Ascii.eqb c old then new else c) (replace_char old new s')
  end.

Definition get_clean_file_name (orig_file_name : string) : string :=
  let cleaned_file_name := filter_chars kept (strip orig_file_name) in
  replace_char " " "_" cleaned_file_name.

(** ** The storage models ([models/ChunkModel.py], [models/ProjectModel.py])

    The models talk to a MongoDB collection through its driver.  The
    collection is a collaborator with a state of its own; the coroutines
    await one driver call after the other, so they run as sequential
    code. *)

Module Storage.

(** What the interpreter, pydantic or the driver may raise here. *)
Inductive failure :=
  | ValueError
  | ZeroDivisionError
  | ValidationError
  | DriverError (what : string).

Inductive answer (A : Type) :=
  | Returned (a : A)
  | Failed (e : failure).
Arguments Returned {A} a.
Arguments Failed {A} e.

Section Models.

(** [doc]: a MongoDB document; [D]: the state of the database. *)
Context {doc D : Type}.

Inductive DbCall :=
  | find_one_call (project_id : string)
  | insert_one_call (d : doc)
  | bulk_write_call (operations : list doc)
  | count_documents_call
  | find_call (skip limit : Z).

(** A run: how it ended, the database it left, the driver calls made. *)
Record run (A : Type) := Run {
  ans : answer A;
  db : D;
  log : list DbCall
}.
Arguments Run {A} ans db log.
Arguments ans {A} r.
Arguments db {A} r.
Arguments log {A} r.

Definition Mongo (A : Type) : Type := D → run A.

Definition sret {A} (a : A) : Mongo A := λ d, Run (Returned a) d []%list.

Definition sbind {A B} (m : Mongo A) (k : A → Mongo B) : Mongo B := λ d,
  let r := m d in
  match ans r with
  | Returned a =>
      let r' := k a (db r) in Run (ans r') (db r') (log r ++ log r')%list
  | Failed e => Run (Failed e) (db r) (log r)
  end.

Definition sfail {A} (e : failure) : Mongo A := λ d, Run (Failed e) d []%list.

(** Running something that touches no collaborator. *)
Definition lift {A} (a : answer A) : Mongo A := λ d, Run a d []%list.

Definition driver {A} (c : DbCall) (f : D → answer A * D) : Mongo A := λ d,
  Run (f d).1 (f d).2 [c]%list.

#[global] Instance Mongo_ret : MRet Mongo := @sret.
#[global] Instance Mongo_bind : MBind Mongo := λ A B k m, sbind m k.

(** The collection, as the models use it: [find_one] by project id,
    [insert_one] answering the inserted id, [bulk_write] of insert
    operations, [count_documents({})], and [find().skip(s).limit(l)] read
    to the end. *)
Record MongoCollection := {
  find_one : string → D → answer (option doc) * D;
  insert_one : doc → D → answer ObjectId * D;
  bulk_write : list doc → D → answer unit * D;
  count_documents : D → answer Z * D;
  find_skip_limit : Z → Z → D → answer (list doc) * D
}.

(** [range(0, n, step)] for a length [n]: a zero step raises, a negative
    step gives nothing, a positive step gives [0, step, 2*step, ...] below
    [n]. *)
Definition range0 (n : nat) (step : Z) : answer (list nat) :=
  if (step =? 0)%Z then Failed ValueError
  else if (step <? 0)%Z then Returned []%list
  else
    let s := Z.to_nat step in
    Returned ((λ k, k * s)%nat <$> seq 0 ((n + s - 1) / s)%nat).

(** ** [ChunkModel.insert_many_chunks]

    [to_doc] stands for [chunk.dict(by_alias=True, exclude_unset=True)]. *)
Definition insert_many_chunks {chunk : Type} (collection : MongoCollection)
    (to_doc : chunk → doc) (chunks : list chunk) (batch_size : Z) : Mongo Z :=
  match range0 (length chunks) batch_size with
  | Failed e => sfail e
  | Returned starts =>
      _ ← mapM (λ i,
                 let batch := take (Z.to_nat batch_size) (drop i chunks) in
                 let operations := to_doc <$> batch in
                 driver (bulk_write_call operations)
                        (bulk_write collection operations))
               starts;
      mret (Z.of_nat (length chunks))
  end.

(** The batches a log wrote, in order. *)
Definition written (l : list DbCall) : list (list doc) :=
  omap (λ c, match c with
             | bulk_write_call operations => Some operations
             | _ => None
             end) l.

(** ** [ProjectModel.get_all_projects]

    [parse] stands for building a [Project] from a document's keys. *)
Definition get_all_projects (collection : MongoCollection)
    (parse : doc → answer Project) (page page_size : Z)
    : Mongo (list Project * Z) :=
  total_documents ← driver count_documents_call (count_documents collection);
  if (page_size =? 0)%Z then sfail ZeroDivisionError
  else
    let total_pages := (total_documents / page_size)%Z in
    let total_pages :=
      if (total_documents mod page_size >? 0)%Z then (total_pages + 1)%Z
      else total_pages in
    documents ← driver (find_call ((page - 1) * page_size) page_size)
                  (find_skip_limit collection ((page - 1) * page_size)
                     page_size);
    projects ← mapM (λ document, lift (parse document)) documents;
    mret (projects, total_pages).

End Models.

Arguments Run {doc D A} ans db log.
Arguments ans {doc D A} r.
Arguments db {doc D A} r.
Arguments log {doc D A} r.

(** ** [ProjectModel.create_project] and [get_project_or_create_one] *)

(** A project document: the [_id] key, when present, and [project_id]. *)
Record ProjectDoc := {
  doc_id : option ObjectId;
  doc_project_id : string
}.

Section Projects.

Context {D : Type}.

(** Python's [str.isalnum]. *)
Variable isalnum : string → bool.

(** The [Project] schema: [project_id] has [min_length=1] and its validator
    wants it alphanumeric. *)
Definition valid_project_id (value : string) : bool :=
  (1 <=? String.length value)%nat && isalnum value.

(** [Project(project_id=...)], and a [Project] built from a record's keys. *)
Definition make_project (oid : option ObjectId) (project_id : string)
    : answer Project :=
  if valid_project_id project_id
  then Returned {| project_oid := oid; project_id := project_id |}
  else Failed ValidationError.

(** [project.dict(by_alias=True, exclude_unset=True)] *)
Definition project_dict (project : Project) : ProjectDoc :=
  {| doc_id := project_oid project; doc_project_id := project_id project |}.

Definition create_project (collection : @MongoCollection ProjectDoc D)
    (project : Project) : @Mongo ProjectDoc D Project :=
  inserted_id ← driver (insert_one_call (project_dict project))
                  (insert_one collection (project_dict project));
  mret {| project_oid := Some inserted_id;
          project_id := project_id project |}.

Definition get_project_or_create_one
    (collection : @MongoCollection ProjectDoc D) (project_id : string)
    : @Mongo ProjectDoc D Project :=
  record ← driver (find_one_call project_id) (find_one collection project_id);
  match record with
  | None =>
      project ← lift (make_project None project_id);
      create_project collection project
  | Some record =>
      lift (make_project (doc_id record) (doc_project_id record))
  end.

End Projects.

(** ** An in-memory collection *)

(** Modelled from the spec: a store that keeps the documents in insertion
    order; it refuses a bulk write that would take it beyond [capacity]
    documents. *)
Record Memory := {
  stored : list string;
  capacity : nat
}.

Definition memory : @MongoCollection string Memory := {|
  find_one := λ pid d,
    (Returned (if bool_decide (pid ∈ stored d) then Some pid else None), d);
  insert_one := λ x d,
    (Returned "id0", {| stored := (stored d ++ [x])%list;
                        capacity := capacity d |});
  bulk_write := λ ops d,
    if (length (stored d) + length ops <=? capacity d)%nat
    then (Returned tt, {| stored := (stored d ++ ops)%list;
                          capacity := capacity d |})
    else (Failed (DriverError "disk full"), d);
  count_documents := λ d, (Returned (Z.of_nat (length (stored d))), d);
  find_skip_limit := λ s l d,
    (Returned (take (Z.to_nat l) (drop (Z.to_nat s) (stored d))), d)
|}.

(** Modelled from the spec: a store of project documents that gives the
    n-th document it inserts the id ["id<n>"]. *)
Definition projects_memory : @MongoCollection ProjectDoc (list ProjectDoc) := {|
  find_one := λ pid d,
    (Returned (List.find (λ r, String.eqb (doc_project_id r) pid) d), d);
  insert_one := λ x d,
    (Returned ("id" +:+ pretty (length d)),
     (d ++ [{| doc_id := Some ("id" +:+ pretty (length d));
               doc_project_id := doc_project_id x |}])%list);
  bulk_write := λ ops d, (Returned tt, (d ++ ops)%list);
  count_documents := λ d, (Returned (Z.of_nat (length d)), d);
  find_skip_limit := λ s l d,
    (Returned (take (Z.to_nat l) (drop (Z.to_nat s) d)), d)
|}.

(** [str.isalnum] on ASCII text: not empty, letters and digits only. *)
Definition ascii_isalnum (s : string) : bool :=
  negb (String.eqb s "")
  && all_chars (λ c, is_word c && negb (Ascii.eqb c "_")) s.

End Storage.

(** * Facts *)

Local Open Scope list_scope.

Section Facts.

Context {scalar metadata message W : Type}.

#[local] Abbreviation M := (@M scalar metadata message W).
#[local] Abbreviation result := (@result scalar metadata message W).
#[local] Abbreviation Call := (@Call scalar metadata message).
#[local] Abbreviation Reply := (@Reply scalar message).
#[local] Abbreviation Event := (@Event scalar metadata message).
#[local] Abbreviation controller :=
  (@NLPController scalar metadata message W).
#[local] Abbreviation embed_calls := (@embed_calls scalar metadata message).
#[local] Abbreviation template_transcript :=
  (@template_transcript scalar metadata message).

Implicit Types (self : controller) (project : Project) (w : W).
Implicit Types (t : list Event) (docs : list (@RetrievedDocument scalar)).

(** ** Running the monad *)

Lemma run_bind {A B} (m : M A) (k : A → M B) w :
  (m ≫= k) w =
  match out (m w) with
  | Normal a =>
      Res (out (k a (st (m w)))) (st (k a (st (m w))))
          (tr (m w) ++ tr (k a (st (m w))))
  | Raised e => Res (Raised e) (st (m w)) (tr (m w))
  end.
Proof. reflexivity. Qed.

Lemma run_call {A} (c : Call) (rep : A → Reply) f w :
  call c rep f w = Res (f w).1 (f w).2 [(c, reply_of rep (f w).1)].
Proof. reflexivity. Qed.

Lemma run_mapM_cons {A B} (f : A → M B) x l w :
  mapM f (x :: l) w = (y ← f x; ys ← mapM f l; mret (y :: ys)) w.
Proof. reflexivity. Qed.

(** A comprehension of collaborator calls issues them in list order; it
    stops at the first call that raises. *)
Lemma mapM_call_transcript {A B} (c : A → Call) (rep : B → Reply)
    (f : A → W → outcome B * W) (l : list A) w :
  match out (mapM (λ x, call (c x) rep (f x)) l w) with
  | Normal ys =>
      length ys = length l ∧
      tr (mapM (λ x, call (c x) rep (f x)) l w)
        = zip_with (λ x y, (c x, rep y)) l ys
  | Raised e =>
      calls (tr (mapM (λ x, call (c x) rep (f x)) l w))
        `prefix_of` (c <$> l)
  end.
Proof.
  revert w. induction l as [|x l IH]; intros w.
  - by cbn.
  - rewrite run_mapM_cons, run_bind, run_call. cbn [out st tr].
    destruct (f x w) as [[y|e] w1] eqn:Hf; cbn [fst snd reply_of].
    + rewrite run_bind. specialize (IH w1).
      set (r := mapM (λ x, call (c x) rep (f x)) l w1) in *.
      destruct (out r) as [ys|e]; cbn [out st tr].
      * destruct IH as [Hlen Htr]. split; [by cbn; f_equal|].
        cbn. by rewrite app_nil_r, Htr.
      * cbn. by apply prefix_cons.
    + cbn. apply prefix_cons, prefix_nil.
Qed.

(** ** [index_into_vector_db], step by step *)

Lemma index_into_vector_db_run self project chunks chunks_ids do_reset w :
  let name := create_collection_name (project_id project) in
  let texts := chunk_text <$> chunks in
  let metadatas := chunk_metadata <$> chunks in
  let e := embed_documents self texts w in
  index_into_vector_db self project chunks chunks_ids do_reset w =
  match out e with
  | Raised x => Res (Raised x) (st e) (tr e)
  | Normal vectors =>
      let size := embedding_size (embedding_client self) (st e) in
      let c := create_collection (vectordb_client self) name size do_reset
                 (st e) in
      match c.1 with
      | Raised x =>
          Res (Raised x) c.2
            (tr e ++ [(create_collection_call name size do_reset,
                       raised_reply x)])
      | Normal b1 =>
          let i := insert_many (vectordb_client self) name texts metadatas
                     vectors chunks_ids c.2 in
          Res (match i.1 with
               | Normal _ => Normal true
               | Raised x => Raised x
               end) i.2
            (tr e ++ [(create_collection_call name size do_reset,
                       bool_reply b1);
                      (insert_many_call name texts metadatas vectors
                         chunks_ids, reply_of bool_reply i.1)])
      end
  end.
Proof.
  intros name texts metadatas e. unfold index_into_vector_db.
  rewrite run_bind. fold name texts metadatas e.
  destruct (out e) as [vectors|x]; [|done].
  rewrite run_bind. cbn [attr out st tr]. rewrite run_bind, run_call.
  cbn [out st tr].
  destruct (create_collection _ _ _ _ _) as [[b1|x] w1]; cbn [fst snd];
    [|done].
  rewrite run_bind, run_call. cbn [out st tr].
  destruct (insert_many _ _ _ _ _ _ _) as [[b2|x] w2]; by cbn.
Qed.

Lemma embed_documents_transcript self texts w :
  match out (embed_documents self texts w) with
  | Normal vectors =>
      length vectors = length texts ∧
      tr (embed_documents self texts w)
        = zip_with (λ txt v, (embed_text_call txt DOCUMENT, vector_reply v))
                   texts vectors
  | Raised _ =>
      calls (tr (embed_documents self texts w))
        `prefix_of` ((λ txt, embed_text_call txt DOCUMENT) <$> texts)
  end.
Proof.
  apply (mapM_call_transcript (λ txt, embed_text_call txt DOCUMENT)
           vector_reply
           (λ txt, embed_text (embedding_client self) txt DOCUMENT)).
Qed.

(** ** [search_vector_db_collection], step by step *)

Lemma search_vector_db_collection_run self project txt limit w :
  let name := create_collection_name (project_id project) in
  let e := embed_text (embedding_client self) txt QUERY w in
  search_vector_db_collection self project txt limit w =
  match e.1 with
  | Raised x => Res (Raised x) e.2 [(embed_text_call txt QUERY, raised_reply x)]
  | Normal v =>
      if falsy v
      then Res (Normal SFalse) e.2 [(embed_text_call txt QUERY, vector_reply v)]
      else
        let s := search_by_vector (vectordb_client self) name
                   (default [] v) limit e.2 in
        Res (match s.1 with
             | Normal results =>
                 Normal (if falsy results then SFalse
                         else SDocs (default [] results))
             | Raised x => Raised x
             end) s.2
          [(embed_text_call txt QUERY, vector_reply v);
           (search_by_vector_call name (default [] v) limit,
            reply_of documents_reply s.1)]
  end.
Proof.
  intros name e. unfold search_vector_db_collection.
  rewrite run_bind, run_call. fold name e. cbn [out st tr].
  destruct e as [[[[|a v]|]|x] w1]; cbn [fst snd reply_of falsy]; try done.
  rewrite run_bind, run_call. cbn [out st tr default].
  destruct (search_by_vector _ _ _ _ _) as [[[[|d docs]|]|x] w2]; by cbn.
Qed.

Lemma embed_calls_app t1 t2 :
  embed_calls (t1 ++ t2) = embed_calls t1 ++ embed_calls t2.
Proof. apply omap_app. Qed.

Lemma embed_calls_of_calls t (texts : list string) mode :
  calls t `prefix_of` ((λ txt, embed_text_call txt mode) <$> texts) →
  embed_calls t `prefix_of` ((λ txt, (txt, mode)) <$> texts).
Proof.
  revert texts. induction t as [|[c r] t IH]; intros texts Hp.
  - apply prefix_nil.
  - destruct texts as [|txt texts]; cbn in Hp.
    + by apply prefix_nil_inv in Hp.
    + destruct Hp as [k Hk]. cbn in Hk. injection Hk as <- Hk.
      cbn. apply prefix_cons, IH. by exists k.
Qed.

Lemma embed_calls_zip (texts : list string) (vs : list (option vector)) mode :
  length vs = length texts →
  embed_calls (zip_with (λ txt v, (embed_text_call txt mode, vector_reply v))
                 texts vs)
  = (λ txt, (txt, mode)) <$> texts.
Proof.
  revert vs. induction texts as [|txt texts IH]; intros [|v vs] Hlen;
    try done.
  cbn. f_equal. apply IH. by injection Hlen.
Qed.

(** C9: whenever [index_into_vector_db] returns normally, what it returns
    is [True], whatever the project, the chunks, the ids, the reset flag
    and the behaviour of the collaborators. *)
Theorem index_into_vector_db_returns_True
    self project chunks chunks_ids do_reset w b :
  out (index_into_vector_db self project chunks chunks_ids do_reset w)
    = Normal b →
  b = true.
Proof.
  rewrite index_into_vector_db_run. cbv zeta.
  destruct (out (embed_documents _ _ _)); [|done].
  destruct (create_collection _ _ _ _ _).1; [|done].
  cbn [out]. destruct (insert_many _ _ _ _ _ _ _).1; [|done].
  by intros [= <-].
Qed.

(** C10: a normal return of [search_vector_db_collection] is [False] or a
    list with at least one document, never the empty list; it is [False]
    exactly when the embedding of the query or the result of the similarity
    search is [None] or empty. *)
Theorem search_vector_db_collection_never_empty
    self project txt limit w r :
  out (search_vector_db_collection self project txt limit w) = Normal r →
  (r = SFalse ∨ ∃ d docs, r = SDocs (d :: docs)) ∧
  (r = SFalse ↔
   ∃ v, (embed_text (embedding_client self) txt QUERY w).1 = Normal v ∧
        (falsy v = true ∨
         ∃ results,
           (search_by_vector (vectordb_client self)
              (create_collection_name (project_id project)) (default [] v)
              limit (embed_text (embedding_client self) txt QUERY w).2).1
           = Normal results ∧ falsy results = true)).
Proof.
  rewrite search_vector_db_collection_run. cbv zeta.
  destruct (embed_text _ _ _ _).1 as [v|x] eqn:He; [|done].
  destruct (falsy v) eqn:Hv.
  - intros [= <-]. split; [by left|]. split; [|done]. intros _.
    exists v. by eauto.
  - cbn [out].
    destruct (search_by_vector _ _ _ _ _).1 as [results|x] eqn:Hsr; [|done].
    intros [= <-]. destruct (falsy results) eqn:Hres.
    + split; [by left|]. split; [|done]. intros _.
      exists v. split; [done|]. right. by exists results.
    + destruct results as [[|d docs]|]; try discriminate Hres.
      split; [right; by eauto|]. split; [done|].
      intros (v' & [= <-] & [Hf|(results & Hsr' & Hf)]); [congruence|].
      rewrite Hsr in Hsr'. by injection Hsr' as <-.
Qed.

(** C7: if embedding the query yields [None] or the empty vector, the
    search ends there with [False]: its only collaborator call is the
    embedding of the query, and the similarity search is never reached. *)
Theorem search_stops_on_failed_query_embedding
    self project txt limit w v :
  (embed_text (embedding_client self) txt QUERY w).1 = Normal v →
  falsy v = true →
  search_vector_db_collection self project txt limit w
    = Res (Normal SFalse)
          (embed_text (embedding_client self) txt QUERY w).2
          [(embed_text_call txt QUERY, vector_reply v)]
  ∧ ∀ name v' lim,
      search_by_vector_call name v' lim
        ∉ calls (tr (search_vector_db_collection self project txt limit w)).
Proof.
  intros He Hv.
  assert (Hrun : search_vector_db_collection self project txt limit w
    = Res (Normal SFalse)
          (embed_text (embedding_client self) txt QUERY w).2
          [(embed_text_call txt QUERY, vector_reply v)]).
  { rewrite search_vector_db_collection_run. cbv zeta.
    by rewrite He, Hv. }
  split; [done|]. intros name v' lim. rewrite Hrun. cbn.
  by intros [?|[]%elem_of_nil]%elem_of_cons.
Qed.

(** C3: indexing embeds the chunk texts, in order and each in the document
    mode (all of them when the call returns, the first ones when a
    collaborator raises); searching embeds exactly the query, in the query
    mode; and the two modes differ. *)
Theorem embedding_mode_asymmetry
    self project chunks chunks_ids do_reset txt limit w :
  match out (index_into_vector_db self project chunks chunks_ids do_reset w)
  with
  | Normal _ =>
      embed_calls
        (tr (index_into_vector_db self project chunks chunks_ids do_reset w))
      = (λ c, (chunk_text c, DOCUMENT)) <$> chunks
  | Raised _ =>
      embed_calls
        (tr (index_into_vector_db self project chunks chunks_ids do_reset w))
      `prefix_of` ((λ c, (chunk_text c, DOCUMENT)) <$> chunks)
  end
  ∧ embed_calls (tr (search_vector_db_collection self project txt limit w))
    = [(txt, QUERY)]
  ∧ DOCUMENT ≠ QUERY.
Proof.
  split; [|split; [|done]].
  - rewrite index_into_vector_db_run. cbv zeta.
    pose proof (embed_documents_transcript self (chunk_text <$> chunks) w)
      as He.
    assert (Hc : (λ c : DataChunk, (chunk_text c, DOCUMENT)) <$> chunks
                 = (λ txt, (txt, DOCUMENT)) <$> (chunk_text <$> chunks))
      by (by rewrite <- list_fmap_compose).
    rewrite Hc. clear Hc.
    destruct (out (embed_documents _ _ _)) as [vs|x].
    + destruct He as [Hlen Htr].
      assert (Hemb : embed_calls (tr (embed_documents self
                        (chunk_text <$> chunks) w))
                     = (λ txt, (txt, DOCUMENT)) <$> (chunk_text <$> chunks))
        by (rewrite Htr; by apply embed_calls_zip).
      destruct (create_collection _ _ _ _ _).1; cbn [out tr].
      * rewrite embed_calls_app, Hemb. cbn. rewrite app_nil_r.
        by destruct (insert_many _ _ _ _ _ _ _).1.
      * rewrite embed_calls_app, Hemb. cbn. by rewrite app_nil_r.
    + cbn [out tr]. by apply embed_calls_of_calls.
  - rewrite search_vector_db_collection_run. cbv zeta.
    destruct (embed_text _ _ _ _).1 as [v|x]; [|done].
    by destruct (falsy v).
Qed.

(** ** [answer_rag_question], step by step *)

Lemma answer_rag_question_unfold self project query limit :
  answer_rag_question self project query limit =
  (retrieved ← search_vector_db_collection self project query limit;
   if no_documents retrieved then mret (None, None, None)
   else prompt_and_generate self query
          match retrieved with SDocs docs => docs | SFalse => [] end).
Proof. reflexivity. Qed.

Lemma mapM_ext {A B} (f g : A → M B) (l : list A) :
  (∀ x, f x = g x) → mapM f l = mapM g l.
Proof.
  intros Hfg. induction l as [|x l IH]; [done|].
  cbn. by rewrite Hfg, IH.
Qed.

Lemma all_str_Some parts ps :
  all_str parts = Some ps → parts = Some <$> ps.
Proof.
  revert ps. induction parts as [|[p|] parts IH]; intros ps; cbn.
  - by intros [= <-].
  - destruct (all_str parts) as [qs|]; [|done].
    intros [= <-]. cbn. f_equal. by apply IH.
  - done.
Qed.

Lemma run_str_join sep parts w :
  str_join sep parts w =
  match all_str parts return result string with
  | Some ps => Res (Normal (join sep ps)) w []
  | None => Res (Raised TypeError) w []
  end.
Proof. unfold str_join. by destruct (all_str parts). Qed.

Lemma zip_with_replies {A} (c : A → Call) (l : list A) (frags : list string) :
  zip_with (λ x y, (c x, text_reply y) : Event) l (Some <$> frags)
  = zip_with (λ x frag, (c x, text_reply (Some frag))) l frags.
Proof.
  revert frags. induction l as [|x l IH]; intros [|f frags]; try done.
  cbn. f_equal. apply IH.
Qed.

Lemma length_enumerate {A} (l : list A) : length (enumerate l) = length l.
Proof. unfold enumerate. apply length_imap. Qed.

(** A normal return of steps 2 to 4 fixes the whole transcript and the
    three values handed back. *)
Lemma prompt_and_generate_normal self query docs w a p h :
  out (prompt_and_generate self query docs w) = Normal (a, p, h) →
  ∃ sys frags footer msg,
    length frags = length docs ∧
    p = Some (documents_then_footer frags footer) ∧
    h = Some [msg] ∧
    tr (prompt_and_generate self query docs w)
      = assembly_transcript self query docs sys frags footer msg
          (documents_then_footer frags footer) a.
Proof.
  unfold prompt_and_generate. cbv zeta.
  rewrite run_bind, run_call. cbn [out st tr].
  destruct (get _ _ _ _ _) as [[sys|x] w1]; cbn [fst snd reply_of]; [|done].
  rewrite run_bind.
  rewrite (mapM_ext _
    (λ id, call (template_get_call "rag" "document_prompt"
                   (document_vars id.1 id.2)) text_reply
                (get (template_parser self) "rag" "document_prompt"
                   (document_vars id.1 id.2)))) by (by intros []).
  pose proof (mapM_call_transcript
    (λ id : Z * RetrievedDocument,
       template_get_call "rag" "document_prompt" (document_vars id.1 id.2))
    text_reply
    (λ id, get (template_parser self) "rag" "document_prompt"
             (document_vars id.1 id.2))
    (enumerate docs) w1) as Hm.
  cbv beta in Hm.
  match type of Hm with
  | match out ?r with _ => _ end => set (rm := r) in *
  end.
  destruct (out rm) as [fragments|x]; [|done].
  destruct Hm as [Hlen Htr]. rewrite length_enumerate in Hlen.
  rewrite run_bind, run_str_join.
  destruct (all_str fragments) as [frags|] eqn:Hall; [|done].
  apply all_str_Some in Hall. subst fragments.
  rewrite length_fmap in Hlen. rewrite zip_with_replies in Htr.
  cbn [out st tr]. rewrite run_bind, run_call. cbn [out st tr].
  destruct (get _ _ _ _ _) as [[footer|x] w2]; cbn [fst snd reply_of];
    [|done].
  rewrite run_bind, run_call. cbn [out st tr].
  destruct (construct_prompt _ _ _ _) as [[msg|x] w3];
    cbn [fst snd reply_of]; [|done].
  rewrite run_bind, run_str_join. cbn [all_str].
  destruct footer as [footer|]; [|done]. cbn [out st tr].
  rewrite run_bind, run_call. cbn [out st tr].
  destruct (generate_text _ _ _ _) as [[ans|x] w4];
    cbn [fst snd reply_of]; [|done].
  cbn [mret M_ret ret out st tr]. intros [= <- <- <-].
  exists sys, frags, footer, msg. split; [done|]. split; [done|].
  split; [done|]. unfold assembly_transcript. rewrite Htr.
  cbn. by rewrite ?app_nil_r, <- ?app_assoc.
Qed.

(** The search talks to the embedding client and the vector store only. *)
Lemma search_calls_only self project txt limit w :
  Forall (λ c, is_template_call c = false ∧ is_generation_call c = false)
    (calls (tr (search_vector_db_collection self project txt limit w))).
Proof.
  rewrite search_vector_db_collection_run. cbv zeta.
  destruct (embed_text _ _ _ _).1 as [v|x]; [|by repeat constructor].
  destruct (falsy v); by repeat constructor.
Qed.

Lemma template_transcript_search self project txt limit w :
  template_transcript
    (tr (search_vector_db_collection self project txt limit w)) = [].
Proof.
  rewrite search_vector_db_collection_run. cbv zeta.
  destruct (embed_text _ _ _ _).1 as [v|x]; [|done].
  by destruct (falsy v).
Qed.

Lemma answer_rag_question_early_exit self project query limit w r :
  out (search_vector_db_collection self project query limit w) = Normal r →
  no_documents r = true →
  answer_rag_question self project query limit w
  = Res (Normal (None, None, None))
        (st (search_vector_db_collection self project query limit w))
        (tr (search_vector_db_collection self project query limit w)).
Proof.
  intros Hs Hr. rewrite answer_rag_question_unfold, run_bind, Hs, Hr.
  cbn. by rewrite app_nil_r.
Qed.

(** C6: when retrieval yields no documents, [answer_rag_question] returns
    the all-[None] triple at once: it leaves the state and the transcript
    of the retrieval step as they are, so neither the template parser nor
    the generation backend is called. *)
Theorem answer_rag_question_returns_immediately
    self project query limit w r :
  out (search_vector_db_collection self project query limit w) = Normal r →
  no_documents r = true →
  answer_rag_question self project query limit w
  = Res (Normal (None, None, None))
        (st (search_vector_db_collection self project query limit w))
        (tr (search_vector_db_collection self project query limit w))
  ∧ Forall (λ c, is_template_call c = false ∧ is_generation_call c = false)
      (calls (tr (answer_rag_question self project query limit w))).
Proof.
  intros Hs Hr.
  rewrite (answer_rag_question_early_exit _ _ _ _ _ r Hs Hr).
  split; [done|]. cbn [tr]. apply search_calls_only.
Qed.

Lemma last_assembly_transcript self query docs sys frags footer msg p a t :
  last (t ++ assembly_transcript self query docs sys frags footer msg p a)
  = Some (generate_text_call p [msg], text_reply a).
Proof.
  unfold assembly_transcript.
  rewrite app_comm_cons, !app_assoc.
  change [?x; ?y; ?z] with ([x; y] ++ [z]).
  rewrite !app_assoc. apply last_snoc.
Qed.


Lemma template_transcript_app t1 t2 :
  template_transcript (t1 ++ t2)
  = template_transcript t1 ++ template_transcript t2.
Proof. apply List.filter_app. Qed.

Lemma template_transcript_documents docs frags :
  template_transcript
    (zip_with (λ id frag,
                 (template_get_call "rag" "document_prompt"
                    (document_vars id.1 id.2), text_reply (Some frag)))
              (enumerate docs) frags)
  = zip_with (λ id frag,
                (template_get_call "rag" "document_prompt"
                   (document_vars id.1 id.2), text_reply (Some frag)))
             (enumerate docs) frags.
Proof.
  generalize (enumerate docs). intros l. revert frags.
  induction l as [|x l IH]; intros [|f frags]; try done.
  cbn. f_equal. apply IH.
Qed.

(** C5, as the code has it: the assembled prompt is made of one document
    fragment per retrieved document, asked for in retrieval order with the
    numbers 1, 2, ... and the documents' texts, and of one footer fragment
    asked for with the query; the document fragments are joined by single
    newlines, and a blank line separates that block from the footer. *)
Theorem assembled_prompt_documents_then_footer
    self project query limit w :
  prompt_layout documents_then_footer self project query limit w.
Proof.
  intros a p h. rewrite answer_rag_question_unfold, run_bind.
  pose proof (template_transcript_search self project query limit w) as Hts.
  destruct (out (search_vector_db_collection _ _ _ _ _)) as [r|x] eqn:Hs;
    [|done].
  destruct r as [|[|d docs]]; cbn [no_documents]; try done.
  cbn [out tr]. intros Hres.
  apply prompt_and_generate_normal in Hres as Hpg.
  destruct Hpg as (sys & frags & footer & msg & Hlen & [= ->] & _ & Htr).
  exists (d :: docs), sys, frags, footer.
  split; [done|]. split; [done|]. split; [done|]. split; [|done].
  rewrite template_transcript_app, Hts, Htr. unfold assembly_transcript.
  cbn [app]. change (template_transcript (?e :: ?t))
    with (if is_template_call e.1 then e :: template_transcript t
          else template_transcript t).
  cbn [fst is_template_call]. f_equal.
  rewrite template_transcript_app, template_transcript_documents.
  done.
Qed.

(** ** Writing records by id *)

#[local] Abbreviation VRecord := (@VRecord scalar metadata).
#[local] Abbreviation DataChunk := (@DataChunk metadata).
Implicit Types (vectors : list (option (@vector scalar))).

Lemma upsert_cons (recs : gmap Z VRecord) i ids r rs :
  upsert recs (i :: ids) (r :: rs) = upsert (<[i := r]> recs) ids rs.
Proof. reflexivity. Qed.

Lemma upsert_lookup_other (recs : gmap Z VRecord) ids rs i :
  i ∉ ids → upsert recs ids rs !! i = recs !! i.
Proof.
  revert recs rs. induction ids as [|j ids IH]; intros recs rs Hi; [done|].
  destruct rs as [|r rs]; [done|].
  apply not_elem_of_cons in Hi as [Hij Hi].
  rewrite upsert_cons, IH by done. by rewrite lookup_insert_ne.
Qed.

Lemma upsert_lookup_written (recs : gmap Z VRecord) ids rs i :
  length ids = length rs → i ∈ ids → is_Some (upsert recs ids rs !! i).
Proof.
  revert recs rs. induction ids as [|j ids IH]; intros recs rs Hlen Hi.
  - by apply elem_of_nil in Hi.
  - destruct rs as [|r rs]; [done|]. injection Hlen as Hlen.
    rewrite upsert_cons. destruct (decide (i ∈ ids)) as [Hin|Hout].
    + by apply IH.
    + apply elem_of_cons in Hi as [->|?]; [|done].
      rewrite upsert_lookup_other by done.
      rewrite lookup_insert_eq. by eexists.
Qed.

Lemma upsert_lookup_NoDup (recs : gmap Z VRecord) ids rs k i r :
  NoDup ids → ids !! k = Some i → rs !! k = Some r →
  upsert recs ids rs !! i = Some r.
Proof.
  revert recs rs k.
  induction ids as [|j ids IH]; intros recs rs k Hnd Hi Hr; [done|].
  destruct rs as [|r0 rs]; [done|].
  apply NoDup_cons in Hnd as [Hj Hnd]. rewrite upsert_cons.
  destruct k as [|k]; cbn in Hi, Hr.
  - injection Hi as ->. injection Hr as ->.
    rewrite upsert_lookup_other by done. apply lookup_insert_eq.
  - by apply (IH _ _ k).
Qed.

Lemma records_of_lookup (chunks : list DataChunk) vectors k c v :
  chunks !! k = Some c → vectors !! k = Some v →
  records_of vectors (chunk_text <$> chunks) (chunk_metadata <$> chunks)
    !! k
  = Some {| rec_vector := v; rec_text := chunk_text c;
            rec_metadata := chunk_metadata c |}.
Proof.
  intros Hc Hv. unfold records_of.
  by rewrite lookup_zip_with, Hv, lookup_zip_with, !list_lookup_fmap, Hc.
Qed.

Lemma length_records_of vectors texts (metadatas : list metadata) :
  length vectors = length texts → length metadatas = length texts →
  length (records_of vectors texts metadatas) = length texts.
Proof.
  intros Hv Hm. unfold records_of.
  rewrite length_zip_with, length_zip. lia.
Qed.

(** C4: with a vector store that honors its contract, indexing with
    [do_reset=True] creates the collection anew before it writes, and
    leaves in it exactly the records of this call: every given id is
    present, no other id is, and (ids being distinct) each id holds the
    vector, text and metadata of its chunk.  What the collection held
    before plays no part. *)
Theorem index_with_reset_replaces_collection
    (view : W → gmap string (@Collection scalar metadata))
    self project (chunks : list DataChunk) chunks_ids w vectors :
  honors_contract (vectordb_client self) view →
  length chunks_ids = length chunks →
  out (embed_documents self (chunk_text <$> chunks) w) = Normal vectors →
  let name := create_collection_name (project_id project) in
  let texts := chunk_text <$> chunks in
  let metadatas := chunk_metadata <$> chunks in
  let e := embed_documents self texts w in
  let size := embedding_size (embedding_client self) (st e) in
  let r := index_into_vector_db self project chunks chunks_ids true w in
  out r = Normal true ∧
  (∃ b1 b2,
     tr r = tr e ++
            [(create_collection_call name size true, bool_reply b1);
             (insert_many_call name texts metadatas vectors chunks_ids,
              bool_reply b2)]) ∧
  ∃ recs,
    view (st r) !! name = Some (size, recs) ∧
    recs = upsert ∅ chunks_ids (records_of vectors texts metadatas) ∧
    (∀ i, i ∈ chunks_ids → is_Some (recs !! i)) ∧
    (∀ i, i ∉ chunks_ids → recs !! i = None) ∧
    (NoDup chunks_ids →
     ∀ k i c v,
       chunks_ids !! k = Some i → chunks !! k = Some c →
       vectors !! k = Some v →
       recs !! i = Some {| rec_vector := v; rec_text := chunk_text c;
                           rec_metadata := chunk_metadata c |}).
Proof.
  intros Hvdb Hids He.
  pose proof (embed_documents_transcript self (chunk_text <$> chunks) w)
    as Hlen.
  rewrite He in Hlen. destruct Hlen as [Hlen _].
  intros name texts metadatas e size r. fold texts e in He, Hlen.
  assert (Htexts : length texts = length chunks) by apply length_fmap.
  assert (Hmetas : length metadatas = length texts)
    by (unfold metadatas, texts; by rewrite !length_fmap).
  destruct (create_with_reset _ _ Hvdb name size (st e)) as [[b1 Hc] Hvc].
  assert (Hname : view (create_collection (vectordb_client self) name size
                          true (st e)).2 !! name = Some (size, ∅))
    by (rewrite Hvc; apply lookup_insert_eq).
  destruct (insert_is_upsert _ _ Hvdb name texts metadatas vectors
              chunks_ids _ _ _ Hname) as [[b2 Hi] Hvi]; [lia|done|done|].
  assert (Hrun : r = Res (Normal true)
     (insert_many (vectordb_client self) name texts metadatas vectors
        chunks_ids
        (create_collection (vectordb_client self) name size true (st e)).2).2
     (tr e ++ [(create_collection_call name size true, bool_reply b1);
               (insert_many_call name texts metadatas vectors chunks_ids,
                bool_reply b2)])).
  { unfold r. rewrite index_into_vector_db_run. cbv zeta.
    fold texts metadatas name e. rewrite He. fold size.
    by rewrite Hc, Hi. }
  rewrite Hrun. cbn [out st tr]. split; [done|]. split; [by eexists _, _|].
  eexists. split; [by rewrite Hvi, lookup_insert_eq|]. split; [done|].
  assert (Hrecs : length chunks_ids
                  = length (records_of vectors texts metadatas))
    by (rewrite length_records_of; [lia|done..]).
  split; [|split].
  - intros i Hin. by apply upsert_lookup_written.
  - intros i Hout. by rewrite upsert_lookup_other.
  - intros Hnd k i c v Hk Hck Hvk.
    apply (upsert_lookup_NoDup _ _ _ k); [done..|].
    by apply records_of_lookup.
Qed.

End Facts.

(** ** The in-memory collaborators at work *)

Lemma Demo_vectordb_honors_contract :
  honors_contract Demo.vectordb Demo.collections.
Proof.
  split.
  - intros name size w. cbn. rewrite lookup_delete_eq. cbn.
    split; [by eexists|]. apply insert_delete_eq.
  - intros name size w. cbn.
    destruct (Demo.collections w !! name); cbn; split; by eauto.
  - intros name texts metadatas vectors ids w dim recs Hname _ _ _. cbn.
    rewrite Hname. cbn. split; by eauto.
Qed.

(** C9, on a run: indexing three chunks into an empty store returns [True]. *)
Lemma index_into_vector_db_returns_True_witness :
  out (index_into_vector_db Demo.controller Demo.p1 Demo.chunks3 [1; 2; 3]
         false Demo.empty) = Normal true
  ∧ true = true.
Proof.
  split; [vm_compute; reflexivity|].
  apply (index_into_vector_db_returns_True Demo.controller Demo.p1
           Demo.chunks3 [1; 2; 3] false Demo.empty).
  vm_compute; reflexivity.
Defined.

(** C10, on a run: a search that finds documents returns a list with a
    first element. *)
Lemma search_vector_db_collection_never_empty_witness :
  out (search_vector_db_collection Demo.controller Demo.p1 "physics" 2
         Demo.indexed) = Normal (SDocs Demo.two_documents)
  ∧ (SDocs Demo.two_documents = SFalse
     ∨ ∃ d docs, SDocs Demo.two_documents = SDocs (d :: docs)).
Proof.
  split; [vm_compute; reflexivity|].
  apply (search_vector_db_collection_never_empty Demo.controller Demo.p1
           "physics" 2 Demo.indexed (SDocs Demo.two_documents)).
  vm_compute; reflexivity.
Defined.

(** C7, on a run: the embedding backend gives no vector for the query, and
    the search ends after that one call. *)
Lemma search_stops_on_failed_query_embedding_witness :
  (embed_text Demo.embedding "the dog ran" QUERY Demo.degraded).1
    = Normal None
  ∧ falsy (@None (list Demo.scalar)) = true
  ∧ search_vector_db_collection Demo.controller Demo.p1 "the dog ran" 5
      Demo.degraded
    = Res (Normal SFalse) Demo.degraded
          [(embed_text_call "the dog ran" QUERY, vector_reply None)].
Proof.
  split; [vm_compute; reflexivity|]. split; [reflexivity|].
  apply (search_stops_on_failed_query_embedding Demo.controller Demo.p1
           "the dog ran" 5 Demo.degraded None);
    [vm_compute; reflexivity | reflexivity].
Defined.

(** C6, on a run: retrieval returns [False], and the answer is the all-[None]
    triple with the transcript of the retrieval alone. *)
Lemma answer_rag_question_returns_immediately_witness :
  out (search_vector_db_collection Demo.controller Demo.p1 "the dog ran" 5
         Demo.degraded) = Normal SFalse
  ∧ no_documents (@SFalse Demo.scalar) = true
  ∧ answer_rag_question Demo.controller Demo.p1 "the dog ran" 5 Demo.degraded
    = Res (Normal (None, None, None)) Demo.degraded
          [(embed_text_call "the dog ran" QUERY, vector_reply None)].
Proof.
  split; [vm_compute; reflexivity|]. split; [reflexivity|].
  apply (answer_rag_question_returns_immediately Demo.controller Demo.p1
           "the dog ran" 5 Demo.degraded SFalse);
    [vm_compute; reflexivity | reflexivity].
Defined.


(** C5, on a run: the prompt built from two documents. *)
Lemma assembled_prompt_documents_then_footer_witness :
  out (answer_rag_question Demo.controller Demo.p1 "physics" 2 Demo.indexed)
    = Normal (Demo.physics_answer, Some Demo.physics_prompt,
              Some Demo.physics_history)
  ∧ ∃ docs sys frags footer,
      out (search_vector_db_collection Demo.controller Demo.p1 "physics" 2
             Demo.indexed) = Normal (SDocs docs) ∧
      docs ≠ [] ∧
      length frags = length docs ∧
      template_transcript
        (tr (answer_rag_question Demo.controller Demo.p1 "physics" 2
               Demo.indexed))
      = (template_get_call "rag" "system_prompt" None, text_reply sys)
        :: zip_with (λ id frag,
                       (template_get_call "rag" "document_prompt"
                          (document_vars id.1 id.2), text_reply (Some frag)))
                    (enumerate docs) frags
        ++ [(template_get_call "rag" "footer_prompt" (footer_vars "physics"),
             text_reply (Some footer))] ∧
      Demo.physics_prompt = documents_then_footer frags footer.
Proof.
  split; [vm_compute; reflexivity|].
  apply (assembled_prompt_documents_then_footer Demo.controller Demo.p1
           "physics" 2 Demo.indexed Demo.physics_answer Demo.physics_prompt
           (Some Demo.physics_history)).
  vm_compute; reflexivity.
Defined.

(** C5 as stated fails: with two documents retrieved, the two document
    fragments are one newline apart, not a blank line. *)
Lemma assembled_prompt_not_blank_line_separated :
  ¬ prompt_layout blank_line_separated Demo.controller Demo.p1 "physics" 2
      Demo.indexed.
Proof.
  intros H.
  destruct (H Demo.physics_answer Demo.physics_prompt
              (Some Demo.physics_history))
    as (docs & sys & frags & footer & Hs & _ & Hlen & Htr & Hp);
    [vm_compute; reflexivity|].
  vm_compute in Hs. injection Hs as <-.
  destruct frags as [|f1 [|f2 [|f3 frags]]]; try discriminate Hlen.
  vm_compute in Htr. revert Hp. simplify_eq. intros Hp.
  vm_compute in Hp. discriminate Hp.
Qed.

(** C4, on a run: re-indexing two chunks under the ids 7 and 8 with a reset
    leaves the records 7 and 8, and nothing of the ids 1, 2, 3 indexed
    before. *)
Lemma index_with_reset_replaces_collection_witness :
  honors_contract Demo.vectordb Demo.collections
  ∧ length [7; 8] = length Demo.chunks2
  ∧ out (embed_documents Demo.controller (chunk_text <$> Demo.chunks2)
           Demo.indexed) = Normal [Some [11; 0]; Some [11; 0]]
  ∧ ∃ recs,
      Demo.collections
        (st (index_into_vector_db Demo.controller Demo.p1 Demo.chunks2 [7; 8]
               true Demo.indexed)) !! "collection_p1" = Some (Some 2, recs)
      ∧ recs !! 1 = None
      ∧ recs !! 8 = Some (Demo.record (Some [11; 0]) "the dog ran").
Proof.
  split; [exact Demo_vectordb_honors_contract|].
  split; [reflexivity|]. split; [vm_compute; reflexivity|].
  destruct (index_with_reset_replaces_collection Demo.collections
              Demo.controller Demo.p1 Demo.chunks2 [7; 8] Demo.indexed
              [Some [11; 0]; Some [11; 0]] Demo_vectordb_honors_contract
              eq_refl ltac:(vm_compute; reflexivity))
    as (_ & _ & recs & Hview & _ & _ & Hother & Hgiven).
  assert (Hnd : NoDup [7; 8]).
  { apply NoDup_cons. split; [|apply NoDup_singleton].
    by intros ?%list_elem_of_singleton. }
  exists recs. split; [exact Hview|]. split.
  - apply Hother. by intros [?|[?|[]%elem_of_nil]%elem_of_cons]%elem_of_cons.
  - apply (Hgiven Hnd 1%nat 8 (Demo.chunk 2 "the dog ran") (Some [11; 0]));
      reflexivity.
Defined.

(** C2 fails on the code: the embedding backend returns no vector for the
    second chunk, and [index_into_vector_db] goes on to the vector store all
    the same.  The write is issued with the missing vector in the batch, the
    call returns [True], and both records are in the collection afterwards,
    next to the three indexed before. *)
Theorem index_writes_batch_with_failed_embedding :
  index_into_vector_db Demo.controller Demo.p1 Demo.chunks2 [7; 8] false
    Demo.degraded
  = Res (Normal true)
      (Demo.with_collections Demo.degraded
         (<["collection_p1" :=
              (Some 2, <[8 := Demo.record None "the dog ran"]>
                         (<[7 := Demo.record (Some [11; 0]) "the cat sat"]>
                            (<[3 := Demo.record (Some [15; 0])
                                      "quantum physics"]>
                               (<[2 := Demo.record (Some [11; 0])
                                         "the dog ran"]>
                                  {[1 := Demo.record (Some [11; 0])
                                           "the cat sat"]}))))]> ∅))
      [(embed_text_call "the cat sat" DOCUMENT, vector_reply (Some [11; 0]));
       (embed_text_call "the dog ran" DOCUMENT, vector_reply None);
       (create_collection_call "collection_p1" (Some 2) false,
        bool_reply false);
       (insert_many_call "collection_p1" ["the cat sat"; "the dog ran"]
          [[("source", "a.txt")]; [("source", "a.txt")]]
          [Some [11; 0]; None] [7; 8], bool_reply true)].
Proof. vm_compute. reflexivity. Qed.

(** * Further facts *)

(** ** Collection names *)

Lemma rstrip_cons_nonspace c s :
  is_space c = false → rstrip (String c s) = String c (rstrip s).
Proof. intros Hc. cbn [rstrip]. destruct (rstrip s); by rewrite ?Hc. Qed.

Lemma rstrip_no_space s :
  all_chars (λ c, negb (is_space c)) s = true → rstrip s = s.
Proof.
  induction s as [|c s IH]; [done|]. cbn [all_chars].
  intros [Hc Hs]%andb_true_iff. apply negb_true_iff in Hc.
  by rewrite rstrip_cons_nonspace, IH.
Qed.

Lemma rstrip_all_space ws :
  all_chars is_space ws = true → rstrip ws = EmptyString.
Proof.
  induction ws as [|c ws IH]; [done|]. cbn [all_chars rstrip].
  intros [Hc Hs]%andb_true_iff. by rewrite IH, Hc.
Qed.

Lemma rstrip_app_space s ws :
  all_chars is_space ws = true → rstrip (s +:+ ws) = rstrip s.
Proof.
  intros Hws. induction s as [|c s IH].
  - by apply rstrip_all_space.
  - change (String c s +:+ ws) with (String c (s +:+ ws)).
    change (rstrip (String c (s +:+ ws)))
      with (match rstrip (s +:+ ws) with
            | EmptyString =>
                if is_space c then EmptyString else String c EmptyString
            | r => String c r
            end).
    by rewrite IH.
Qed.

Lemma rstrip_app_no_space a b :
  all_chars (λ c, negb (is_space c)) a = true →
  rstrip (a +:+ b) = a +:+ rstrip b.
Proof.
  induction a as [|c a IH]; [done|]. cbn [all_chars].
  intros [Hc Ha]%andb_true_iff. apply negb_true_iff in Hc.
  change (String c a +:+ b) with (String c (a +:+ b)).
  rewrite rstrip_cons_nonspace, IH by done. done.
Qed.

Lemma string_app_inv_head (a x y : string) : a +:+ x = a +:+ y → x = y.
Proof.
  induction a as [|c a IH]; [done|].
  change (String c a +:+ ?z) with (String c (a +:+ z)).
  intros [= Heq]. by apply IH.
Qed.

Lemma create_collection_name_rstrip pid :
  create_collection_name pid = "collection_" +:+ rstrip pid.
Proof.
  unfold create_collection_name, strip.
  change (lstrip ("collection_" +:+ pid)) with ("collection_" +:+ pid).
  by apply rstrip_app_no_space.
Qed.






(** ** Indexing and searching, run by run *)

Section MoreFacts.

Context {scalar metadata message W : Type}.

#[local] Abbreviation M := (@M scalar metadata message W).
#[local] Abbreviation result := (@result scalar metadata message W).
#[local] Abbreviation Call := (@Call scalar metadata message).
#[local] Abbreviation Reply := (@Reply scalar message).
#[local] Abbreviation Event := (@Event scalar metadata message).
#[local] Abbreviation controller :=
  (@NLPController scalar metadata message W).
#[local] Abbreviation DataChunk := (@DataChunk metadata).
#[local] Abbreviation VRecord := (@VRecord scalar metadata).

Implicit Types (self : controller) (project : Project) (w : W).
Implicit Types (t : list Event) (docs : list (@RetrievedDocument scalar)).
Implicit Types (vectors : list (option (@vector scalar))).
Implicit Types (chunks : list DataChunk).

(** A comprehension of calls that raises has answered some calls and ends
    with the call that raised. *)
Lemma mapM_call_raised {A B} (c : A → Call) (rep : B → Reply)
    (f : A → W → outcome B * W) (l : list A) w e :
  out (mapM (λ x, call (c x) rep (f x)) l w) = Raised e →
  ∃ l1 x l2 ys,
    l = l1 ++ x :: l2 ∧ length ys = length l1 ∧
    tr (mapM (λ x, call (c x) rep (f x)) l w)
    = zip_with (λ x y, (c x, rep y)) l1 ys ++ [(c x, raised_reply e)].
Proof.
  revert w. induction l as [|x l IH]; intros w; [done|].
  rewrite run_mapM_cons, run_bind, run_call. cbn [out st tr].
  destruct (f x w) as [[y|e0] w1] eqn:Hf; cbn [fst snd reply_of].
  - rewrite run_bind. specialize (IH w1).
    set (r := mapM (λ x, call (c x) rep (f x)) l w1) in *.
    destruct (out r) as [ys|e1]; cbn [out st tr]; [done|].
    intros [= ->].
    destruct (IH eq_refl) as (l1 & x1 & l2 & ys & -> & Hlen & ->).
    exists (x :: l1), x1, l2, (y :: ys). cbn. by rewrite Hlen.
  - intros [= ->]. by exists [], x, l, [].
Qed.

Lemma zip_with_no_raised {A B} (c : A → Call) (rep : B → Reply)
    (l : list A) (ys : list B) c0 e :
  (∀ y, rep y ≠ raised_reply e) →
  (c0, raised_reply e) ∉ zip_with (λ x y, (c x, rep y)) l ys.
Proof.
  intros Hrep. revert ys. induction l as [|x l IH]; intros [|y ys];
    cbn; try apply not_elem_of_nil.
  apply not_elem_of_cons. split; [|apply IH].
  intros [= _ Heq]. by apply (Hrep y).
Qed.

Lemma embed_calls_only_embed (texts : list string) (cs : list Call) :
  cs `prefix_of` ((λ txt, embed_text_call txt DOCUMENT) <$> texts) →
  Forall (λ c, is_vectordb_call c = false) cs.
Proof.
  intros [k Hk]. apply Forall_forall. intros c Hc.
  assert (Hin : c ∈ (λ txt, embed_text_call txt DOCUMENT) <$> texts)
    by (rewrite Hk; apply elem_of_app; by left).
  apply list_elem_of_fmap in Hin as (txt & -> & _). done.
Qed.

(** X4: an embedding call that raises ends [index_into_vector_db] on the
    spot: the exception is the outcome, and no call has gone to the vector
    store. *)
Theorem index_stops_at_raising_embedding
    self project chunks chunks_ids do_reset w txt mode x :
  (embed_text_call txt mode, raised_reply x)
    ∈ tr (index_into_vector_db self project chunks chunks_ids do_reset w) →
  out (index_into_vector_db self project chunks chunks_ids do_reset w)
    = Raised x
  ∧ Forall (λ c, is_vectordb_call c = false)
      (calls (tr (index_into_vector_db self project chunks chunks_ids
                    do_reset w))).
Proof.
  rewrite index_into_vector_db_run. cbv zeta.
  pose proof (embed_documents_transcript self (chunk_text <$> chunks) w)
    as He.
  destruct (out (embed_documents _ _ _)) as [vs|e] eqn:Hout.
  - destruct He as [_ Htr]. intros Hin. exfalso.
    assert (Hno : (embed_text_call txt mode, raised_reply x)
                    ∉ tr (embed_documents self (chunk_text <$> chunks) w)).
    { rewrite Htr.
      apply (zip_with_no_raised (λ s : string, embed_text_call s DOCUMENT)
               vector_reply). done. }
    destruct (create_collection _ _ _ _ _).1; cbn [tr] in Hin;
      apply elem_of_app in Hin as [Hin|Hin]; try done;
      repeat (apply elem_of_cons in Hin as [Hin|Hin]; [done|]);
      by apply elem_of_nil in Hin.
  - cbn [out tr]. intros Hin.
    apply mapM_call_raised in Hout
      as (l1 & x1 & l2 & ys & _ & _ & Htr).
    split; [|by apply (embed_calls_only_embed (chunk_text <$> chunks))].
    unfold embed_documents in Hin. rewrite Htr in Hin.
    apply elem_of_app in Hin as [Hin|Hin].
    + by apply (zip_with_no_raised (λ s : string, embed_text_call s DOCUMENT)
                  vector_reply) in Hin.
    + apply list_elem_of_singleton in Hin. by injection Hin as _ _ ->.
Qed.

(** X5: when [index_into_vector_db] returns, its transcript is one
    embedding call per chunk, in order, then [create_collection] with the
    embedding size and the reset flag, then one [insert_many] that carries,
    index by index, the chunks' texts, their metadata and the vectors the
    embedding calls answered; the record ids are handed over as given. *)
Theorem index_into_vector_db_transcript
    self project chunks chunks_ids do_reset w b :
  out (index_into_vector_db self project chunks chunks_ids do_reset w)
    = Normal b →
  ∃ vectors b1 b2,
    length vectors = length chunks ∧
    out (embed_documents self (chunk_text <$> chunks) w) = Normal vectors ∧
    tr (index_into_vector_db self project chunks chunks_ids do_reset w)
    = zip_with (λ (c : DataChunk) v,
                  (embed_text_call (chunk_text c) DOCUMENT, vector_reply v))
               chunks vectors
      ++ [(create_collection_call
             (create_collection_name (project_id project))
             (embedding_size (embedding_client self)
                (st (embed_documents self (chunk_text <$> chunks) w)))
             do_reset,
           bool_reply b1);
          (insert_many_call (create_collection_name (project_id project))
             (chunk_text <$> chunks) (chunk_metadata <$> chunks) vectors
             chunks_ids,
           bool_reply b2)].
Proof.
  rewrite index_into_vector_db_run. cbv zeta.
  pose proof (embed_documents_transcript self (chunk_text <$> chunks) w)
    as He.
  destruct (out (embed_documents _ _ _)) as [vs|e]; [|done].
  destruct He as [Hlen Htr]. rewrite length_fmap in Hlen.
  destruct (create_collection _ _ _ _ _).1 as [b1|e]; [|done].
  cbn [out tr].
  destruct (insert_many _ _ _ _ _ _ _).1 as [b2|e]; [|done].
  intros _. exists vs, b1, b2.
  split; [done|]. split; [done|]. cbn [reply_of]. rewrite Htr. f_equal.
  clear. revert vs. induction chunks as [|c chunks IH]; intros [|v vs];
    try done.
  cbn. f_equal. apply IH.
Qed.

(** ** Indexing without a reset *)

Lemma upsert_lookup_unlisted (m : gmap Z VRecord) ids rs i :
  i ∉ (zip ids rs).*1 → upsert m ids rs !! i = m !! i.
Proof.
  unfold upsert. generalize (zip ids rs). intros l. revert m.
  induction l as [|[j r] l IH]; intros m Hi; [done|].
  cbn in Hi. apply not_elem_of_cons in Hi as [Hij Hi].
  cbn. rewrite IH by done. by rewrite lookup_insert_ne.
Qed.

Lemma upsert_lookup_listed (m1 m2 : gmap Z VRecord) ids rs i :
  i ∈ (zip ids rs).*1 → upsert m1 ids rs !! i = upsert m2 ids rs !! i.
Proof.
  unfold upsert. generalize (zip ids rs). intros l. revert m1 m2.
  induction l as [|[j r] l IH]; intros m1 m2 Hi.
  - by apply elem_of_nil in Hi.
  - cbn. destruct (decide (i ∈ l.*1)) as [Hin|Hout]; [by apply IH|].
    cbn in Hi. apply elem_of_cons in Hi as [->|?]; [|done].
    pose proof (upsert_lookup_unlisted (<[j:=r]> m1) l.*1 l.*2 j) as H1.
    pose proof (upsert_lookup_unlisted (<[j:=r]> m2) l.*1 l.*2 j) as H2.
    unfold upsert in H1, H2. rewrite zip_fst_snd in H1, H2.
    rewrite H1, H2 by done. by rewrite !lookup_insert_eq.
Qed.

(** Writing the same records under the same ids a second time changes
    nothing. *)
Lemma upsert_idemp (m : gmap Z VRecord) ids rs :
  upsert (upsert m ids rs) ids rs = upsert m ids rs.
Proof.
  apply map_eq. intros i.
  destruct (decide (i ∈ (zip ids rs).*1)) as [Hin|Hout].
  - by apply upsert_lookup_listed.
  - by rewrite !upsert_lookup_unlisted.
Qed.

Lemma embed_documents_cons self txt texts w :
  embed_documents self (txt :: texts) w
  = (v ← call (embed_text_call txt DOCUMENT) vector_reply
           (embed_text (embedding_client self) txt DOCUMENT);
     vs ← embed_documents self texts;
     mret (v :: vs)) w.
Proof. reflexivity. Qed.

Lemma embed_documents_keeps self texts w
    (view : W → gmap string (@Collection scalar metadata)) :
  embedding_keeps (embedding_client self) view →
  view (st (embed_documents self texts w)) = view w.
Proof.
  intros Hk. revert w.
  induction texts as [|txt texts IH]; intros w; [done|].
  rewrite embed_documents_cons, run_bind, run_call. cbn [out st tr].
  specialize (Hk txt DOCUMENT w).
  destruct (embed_text _ _ _ _) as [[v|e] w1]; cbn [fst snd] in *; [|done].
  rewrite run_bind. specialize (IH w1).
  destruct (out (embed_documents self texts w1)); cbn; congruence.
Qed.

(** Under the store's contract, a call without reset leaves the collection
    as an upsert into what the collection held when the embeddings were
    done, or into a new empty collection of the embedding size. *)
Lemma index_without_reset_view
    (view : W → gmap string (@Collection scalar metadata))
    self project chunks chunks_ids w vectors prev :
  honors_contract (vectordb_client self) view →
  length chunks_ids = length chunks →
  out (embed_documents self (chunk_text <$> chunks) w) = Normal vectors →
  let name := create_collection_name (project_id project) in
  let e := embed_documents self (chunk_text <$> chunks) w in
  let r := index_into_vector_db self project chunks chunks_ids false w in
  view (st e) !! name = prev →
  out r = Normal true ∧
  view (st r) !! name
  = Some (match prev with
          | Some (dim, old) =>
              (dim, upsert old chunks_ids
                      (records_of vectors (chunk_text <$> chunks)
                         (chunk_metadata <$> chunks)))
          | None =>
              (embedding_size (embedding_client self) (st e),
               upsert ∅ chunks_ids
                 (records_of vectors (chunk_text <$> chunks)
                    (chunk_metadata <$> chunks)))
          end).
Proof.
  intros Hvdb Hids He.
  pose proof (embed_documents_transcript self (chunk_text <$> chunks) w)
    as Hlen.
  rewrite He in Hlen. destruct Hlen as [Hlen _]. intros name e r <-.
  set (texts := chunk_text <$> chunks) in *.
  set (metadatas := chunk_metadata <$> chunks) in *.
  set (size := embedding_size (embedding_client self) (st e)).
  fold e in He.
  assert (Htexts : length texts = length chunks) by apply length_fmap.
  assert (Hmetas : length metadatas = length texts)
    by (unfold metadatas, texts; by rewrite !length_fmap).
  destruct (create_if_absent _ _ Hvdb name size (st e)) as [[b1 Hc] Hvc].
  set (w1 := (create_collection (vectordb_client self) name size false
                (st e)).2) in *.
  assert (Hname : view w1 !! name
                  = Some (default (size, ∅) (view (st e) !! name))).
  { rewrite Hvc. destruct (view (st e) !! name) eqn:Hold; [done|].
    apply lookup_insert_eq. }
  destruct (default (size, ∅) (view (st e) !! name)) as [dim old] eqn:Hd.
  destruct (insert_is_upsert _ _ Hvdb name texts metadatas vectors
              chunks_ids _ _ _ Hname) as [[b2 Hi] Hvi]; [lia|done|done|].
  assert (Hrun : r = Res (Normal true)
     (insert_many (vectordb_client self) name texts metadatas vectors
        chunks_ids w1).2
     (tr e ++ [(create_collection_call name size false, bool_reply b1);
               (insert_many_call name texts metadatas vectors chunks_ids,
                bool_reply b2)])).
  { unfold r. rewrite index_into_vector_db_run. cbv zeta.
    fold texts metadatas name e. rewrite He. fold size.
    rewrite Hc. fold w1. by rewrite Hi. }
  rewrite Hrun. cbn [out st]. split; [done|].
  rewrite Hvi, lookup_insert_eq. f_equal.
  destruct (view (st e) !! name) as [[d o]|]; cbn in Hd;
    by injection Hd as <- <-.
Qed.

(** X6: without a reset, indexing into a collection that exists keeps the
    collection's dimensionality and every record whose id is not among the
    given ones; the given ids are written (overwritten when present). *)
Theorem index_without_reset_keeps_other_records
    (view : W → gmap string (@Collection scalar metadata))
    self project chunks chunks_ids w vectors dim old :
  honors_contract (vectordb_client self) view →
  length chunks_ids = length chunks →
  out (embed_documents self (chunk_text <$> chunks) w) = Normal vectors →
  view (st (embed_documents self (chunk_text <$> chunks) w))
    !! create_collection_name (project_id project) = Some (dim, old) →
  out (index_into_vector_db self project chunks chunks_ids false w)
    = Normal true ∧
  ∃ recs,
    view (st (index_into_vector_db self project chunks chunks_ids false w))
      !! create_collection_name (project_id project) = Some (dim, recs) ∧
    (∀ i, i ∉ chunks_ids → recs !! i = old !! i) ∧
    (∀ i, i ∈ chunks_ids → is_Some (recs !! i)) ∧
    (NoDup chunks_ids →
     ∀ k i c v,
       chunks_ids !! k = Some i → chunks !! k = Some c →
       vectors !! k = Some v →
       recs !! i = Some {| rec_vector := v; rec_text := chunk_text c;
                           rec_metadata := chunk_metadata c |}).
Proof.
  intros Hvdb Hids He Hold.
  destruct (index_without_reset_view view self project chunks chunks_ids w
              vectors _ Hvdb Hids He Hold) as [Hout Hview].
  split; [done|]. eexists. split; [exact Hview|].
  pose proof (embed_documents_transcript self (chunk_text <$> chunks) w)
    as Hlen.
  rewrite He in Hlen. destruct Hlen as [Hlen _]. rewrite length_fmap in Hlen.
  assert (Hrecs : length chunks_ids
                  = length (records_of vectors (chunk_text <$> chunks)
                              (chunk_metadata <$> chunks)))
    by (rewrite length_records_of; rewrite !length_fmap; lia).
  split; [|split].
  - intros i Hout'. by apply upsert_lookup_other.
  - intros i Hin. by apply upsert_lookup_written.
  - intros Hnd k i c v Hk Hck Hvk.
    apply (upsert_lookup_NoDup _ _ _ k); [done..|].
    by apply records_of_lookup.
Qed.

(** X7: without a reset, indexing for a project that has no collection yet
    creates one with the embedding client's size, holding the records of
    this call and nothing else. *)
Theorem index_without_reset_creates_collection
    (view : W → gmap string (@Collection scalar metadata))
    self project chunks chunks_ids w vectors :
  honors_contract (vectordb_client self) view →
  length chunks_ids = length chunks →
  out (embed_documents self (chunk_text <$> chunks) w) = Normal vectors →
  view (st (embed_documents self (chunk_text <$> chunks) w))
    !! create_collection_name (project_id project) = None →
  out (index_into_vector_db self project chunks chunks_ids false w)
    = Normal true ∧
  ∃ recs,
    view (st (index_into_vector_db self project chunks chunks_ids false w))
      !! create_collection_name (project_id project)
    = Some (embedding_size (embedding_client self)
              (st (embed_documents self (chunk_text <$> chunks) w)), recs) ∧
    (∀ i, i ∉ chunks_ids → recs !! i = None) ∧
    (∀ i, i ∈ chunks_ids → is_Some (recs !! i)).
Proof.
  intros Hvdb Hids He Hold.
  destruct (index_without_reset_view view self project chunks chunks_ids w
              vectors _ Hvdb Hids He Hold) as [Hout Hview].
  split; [done|]. eexists. split; [exact Hview|].
  pose proof (embed_documents_transcript self (chunk_text <$> chunks) w)
    as Hlen.
  rewrite He in Hlen. destruct Hlen as [Hlen _]. rewrite length_fmap in Hlen.
  assert (Hrecs : length chunks_ids
                  = length (records_of vectors (chunk_text <$> chunks)
                              (chunk_metadata <$> chunks)))
    by (rewrite length_records_of; rewrite !length_fmap; lia).
  split.
  - intros i Hout'. by rewrite upsert_lookup_other.
  - intros i Hin. by apply upsert_lookup_written.
Qed.

(** X8: indexing the same chunks under the same ids a second time, the
    embedding client answering as before and leaving the store alone,
    leaves the project's collection as the first call left it. *)
Theorem index_twice_same_collection
    (view : W → gmap string (@Collection scalar metadata))
    self project chunks chunks_ids w vectors :
  honors_contract (vectordb_client self) view →
  embedding_keeps (embedding_client self) view →
  length chunks_ids = length chunks →
  out (embed_documents self (chunk_text <$> chunks) w) = Normal vectors →
  out (embed_documents self (chunk_text <$> chunks)
         (st (index_into_vector_db self project chunks chunks_ids false w)))
    = Normal vectors →
  view (st (index_into_vector_db self project chunks chunks_ids false
              (st (index_into_vector_db self project chunks chunks_ids false
                     w))))
    !! create_collection_name (project_id project)
  = view (st (index_into_vector_db self project chunks chunks_ids false w))
      !! create_collection_name (project_id project).
Proof.
  intros Hvdb Hkeep Hids He1 He2.
  destruct (index_without_reset_view view self project chunks chunks_ids w
              vectors _ Hvdb Hids He1 eq_refl) as [_ Hv1].
  assert (Hprev : view (st (embed_documents self (chunk_text <$> chunks)
      (st (index_into_vector_db self project chunks chunks_ids false w))))
      !! create_collection_name (project_id project)
    = view (st (index_into_vector_db self project chunks chunks_ids false w))
      !! create_collection_name (project_id project))
    by (by rewrite embed_documents_keeps).
  unfold Collection in *. rewrite Hv1 in Hprev.
  destruct (index_without_reset_view view self project chunks chunks_ids _
              vectors _ Hvdb Hids He2 Hprev) as [_ Hv2].
  unfold Collection in *. rewrite Hv2, Hv1. f_equal.
  destruct (view (st (embed_documents _ _ w)) !! _) as [[dim old]|];
    by rewrite upsert_idemp.
Qed.

(** X9: [reset_vector_db_collection] followed by an indexing call without
    reset leaves the project's collection new: the embedding size and the
    records of the indexing call, nothing of what was there before. *)
Theorem reset_then_index_replaces_collection
    (view : W → gmap string (@Collection scalar metadata))
    self project chunks chunks_ids w vectors :
  honors_contract (vectordb_client self) view →
  honors_delete (vectordb_client self) view →
  embedding_keeps (embedding_client self) view →
  length chunks_ids = length chunks →
  out (embed_documents self (chunk_text <$> chunks)
         (st (reset_vector_db_collection self project w))) = Normal vectors →
  let w0 := st (reset_vector_db_collection self project w) in
  (∃ b, out (reset_vector_db_collection self project w) = Normal b) ∧
  out (index_into_vector_db self project chunks chunks_ids false w0)
    = Normal true ∧
  view (st (index_into_vector_db self project chunks chunks_ids false w0))
    !! create_collection_name (project_id project)
  = Some (embedding_size (embedding_client self)
            (st (embed_documents self (chunk_text <$> chunks) w0)),
          upsert ∅ chunks_ids
            (records_of vectors (chunk_text <$> chunks)
               (chunk_metadata <$> chunks))).
Proof.
  intros Hvdb Hdel Hkeep Hids He w0.
  destruct (Hdel (create_collection_name (project_id project)) w)
    as [Hb Hview0].
  split; [exact Hb|].
  assert (Hprev : view (st (embed_documents self (chunk_text <$> chunks) w0))
                     !! create_collection_name (project_id project) = None).
  { rewrite embed_documents_keeps by done.
    unfold w0, reset_vector_db_collection. rewrite run_call. cbn [st].
    by rewrite Hview0, lookup_delete_eq. }
  destruct (index_without_reset_view view self project chunks chunks_ids w0
              vectors _ Hvdb Hids He Hprev) as [Hout Hview].
  by split.
Qed.

(** ** Searching *)

(** X10: a list returned by [search_vector_db_collection] is the list the
    vector store answered, as it is: the transcript is the embedding of the
    query and one similarity search, made with that embedding, the
    project's collection name and the given limit. *)
Theorem search_returns_store_reply self project txt limit w docs :
  out (search_vector_db_collection self project txt limit w)
    = Normal (SDocs docs) →
  ∃ v,
    v ≠ [] ∧ docs ≠ [] ∧
    tr (search_vector_db_collection self project txt limit w)
    = [(embed_text_call txt QUERY, vector_reply (Some v));
       (search_by_vector_call (create_collection_name (project_id project))
          v limit, documents_reply (Some docs))].
Proof.
  rewrite search_vector_db_collection_run. cbv zeta.
  destruct (embed_text _ _ _ _).1 as [[[|a v]|]|x]; cbn [falsy]; try done.
  cbn [out tr default].
  destruct (search_by_vector _ _ _ _ _).1 as [[[|d ds]|]|x]; cbn; try done.
  intros [= <-]. by exists (a :: v).
Qed.

Lemma search_raised_last self project txt limit w x :
  out (search_vector_db_collection self project txt limit w) = Raised x →
  ∃ c, last (tr (search_vector_db_collection self project txt limit w))
       = Some (c, raised_reply x).
Proof.
  rewrite search_vector_db_collection_run. cbv zeta.
  destruct (embed_text _ _ _ _).1 as [v|x0];
    [|intros [= ->]; by eexists].
  destruct (falsy v); [done|]. cbn [out tr].
  destruct (search_by_vector _ _ _ _ _).1 as [res|x0]; [done|].
  intros [= ->]. by eexists.
Qed.

(** X11: when [search_vector_db_collection] raises, the exception is the one
    raised by the collaborator call that ends its transcript. *)
Theorem search_raises_what_collaborator_raised self project txt limit w x :
  out (search_vector_db_collection self project txt limit w) = Raised x →
  ∃ c, last (tr (search_vector_db_collection self project txt limit w))
       = Some (c, raised_reply x).
Proof. apply search_raised_last. Qed.

Lemma search_never_writes self project txt limit w :
  Forall (λ c, is_vectordb_write c = false)
    (calls (tr (search_vector_db_collection self project txt limit w))).
Proof.
  rewrite search_vector_db_collection_run. cbv zeta.
  destruct (embed_text _ _ _ _).1 as [v|x]; [|by repeat constructor].
  destruct (falsy v); by repeat constructor.
Qed.

(** ** Answering, run by run *)

Lemma Forall_calls_mapM {A B} (P : Call → Prop) (c : A → Call)
    (rep : B → Reply) (f : A → W → outcome B * W) (l : list A) w :
  (∀ x, P (c x)) →
  Forall P (calls (tr (mapM (λ x, call (c x) rep (f x)) l w))).
Proof.
  intros Hc. revert w. induction l as [|x l IH]; intros w; [by constructor|].
  rewrite run_mapM_cons, run_bind, run_call. cbn [out st tr].
  destruct (f x w) as [[y|e] w1]; cbn [fst snd reply_of].
  - rewrite run_bind. specialize (IH w1).
    set (r := mapM (λ x, call (c x) rep (f x)) l w1) in *.
    destruct (out r); cbn.
    + rewrite app_nil_r. by constructor.
    + by constructor.
  - cbn. by repeat constructor.
Qed.

Lemma document_prompts_calls self docs w (P : Call → Prop) :
  (∀ vars, P (template_get_call "rag" "document_prompt" vars)) →
  Forall P (calls (tr (document_prompts self docs w))).
Proof. intros HP. by apply Forall_calls_mapM. Qed.

Lemma document_prompts_eq self docs :
  mapM (λ '(idx, doc),
          call (template_get_call "rag" "document_prompt"
                  (document_vars idx doc)) text_reply
               (get (template_parser self) "rag" "document_prompt"
                  (document_vars idx doc)))
       (enumerate docs)
  = document_prompts self docs.
Proof. apply mapM_ext. by intros []. Qed.

(** Steps 2 to 4, branch by branch. *)
Lemma prompt_and_generate_run self query docs w :
  let tp := template_parser self in
  let gen := generation_client self in
  let g1 := get tp "rag" "system_prompt" None w in
  let e1 : Event := (template_get_call "rag" "system_prompt" None,
                     reply_of text_reply g1.1) in
  prompt_and_generate self query docs w =
  match g1.1 with
  | Raised x => Res (Raised x) g1.2 [e1]
  | Normal sys =>
      let rm := document_prompts self docs g1.2 in
      match out rm with
      | Raised x => Res (Raised x) (st rm) (e1 :: tr rm)
      | Normal fragments =>
          match all_str fragments with
          | None => Res (Raised TypeError) (st rm) (e1 :: tr rm)
          | Some frags =>
              let g2 := get tp "rag" "footer_prompt" (footer_vars query)
                          (st rm) in
              let e2 : Event := (footer_call query, reply_of text_reply g2.1) in
              match g2.1 with
              | Raised x => Res (Raised x) g2.2 (e1 :: tr rm ++ [e2])
              | Normal footer =>
                  let cp := construct_prompt gen sys (enums_SYSTEM_value gen)
                              g2.2 in
                  let e3 : Event :=
                    (construct_prompt_call sys (enums_SYSTEM_value gen),
                     reply_of message_reply cp.1) in
                  match cp.1 with
                  | Raised x => Res (Raised x) cp.2 (e1 :: tr rm ++ [e2; e3])
                  | Normal msg =>
                      match footer with
                      | None =>
                          Res (Raised TypeError) cp.2
                            (e1 :: tr rm ++ [e2; e3])
                      | Some foot =>
                          let p := documents_then_footer frags foot in
                          let gt := generate_text gen p [msg] cp.2 in
                          Res (match gt.1 with
                               | Normal a => Normal (a, Some p, Some [msg])
                               | Raised x => Raised x
                               end) gt.2
                            (e1 :: tr rm
                             ++ [e2; e3;
                                 (generate_text_call p [msg],
                                  reply_of text_reply gt.1)])
                      end
                  end
              end
          end
      end
  end.
Proof.
  intros tp gen g1 e1. unfold prompt_and_generate. cbv zeta.
  rewrite run_bind, run_call. cbn [out st tr]. unfold e1, g1, tp, gen.
  destruct (get _ _ _ _ w) as [[sys|x] w1]; cbn [fst snd reply_of]; [|done].
  rewrite run_bind, document_prompts_eq.
  destruct (out (document_prompts self docs w1)) as [fragments|x]; [|done].
  rewrite run_bind, run_str_join.
  destruct (all_str fragments) as [frags|];
    [|by cbn; rewrite ?app_nil_r, <- ?app_assoc].
  cbn [out st tr]. rewrite run_bind, run_call. cbn [out st tr].
  unfold footer_call.
  destruct (get _ _ _ _ _) as [[footer|x] w2]; cbn [fst snd reply_of];
    [|by cbn; rewrite ?app_nil_r, <- ?app_assoc].
  rewrite run_bind, run_call. cbn [out st tr].
  destruct (construct_prompt _ _ _ _) as [[msg|x] w3];
    cbn [fst snd reply_of]; [|by cbn; rewrite ?app_nil_r, <- ?app_assoc].
  rewrite run_bind, run_str_join. cbn [all_str].
  destruct footer as [foot|]; [|by cbn; rewrite ?app_nil_r, <- ?app_assoc].
  cbn [out st tr]. rewrite run_bind, run_call. cbn [out st tr].
  destruct (generate_text _ _ _ _) as [[a|x] w4]; cbn [fst snd reply_of];
    cbn; by rewrite ?app_nil_r, <- ?app_assoc.
Qed.

Lemma calls_cons (e : Event) t : calls (e :: t) = e.1 :: calls t.
Proof. reflexivity. Qed.

Lemma calls_app t1 t2 : calls (t1 ++ t2) = calls t1 ++ calls t2.
Proof. apply fmap_app. Qed.

(** Every call of steps 2 to 4 goes to the template parser or to the
    generation client. *)
Lemma prompt_and_generate_calls self query docs w (P : Call → Prop) :
  (∀ g k vars, P (template_get_call g k vars)) →
  (∀ p r, P (construct_prompt_call p r)) →
  (∀ p h, P (generate_text_call p h)) →
  Forall P (calls (tr (prompt_and_generate self query docs w))).
Proof.
  intros Ht Hc Hg. rewrite prompt_and_generate_run. cbv zeta.
  pose proof (document_prompts_calls self docs
                (get (template_parser self) "rag" "system_prompt" None w).2
                P (Ht "rag" "document_prompt")) as Hd.
  repeat match goal with
         | |- context [match ?o with Normal _ => _ | Raised _ => _ end] =>
             destruct o
         | |- context [match ?o with Some _ => _ | None => _ end] =>
             destruct o
         end;
    cbn [tr]; rewrite ?calls_cons, ?calls_app; unfold footer_call;
    repeat first [ apply Forall_nil
                 | apply Forall_cons; split; [by cbn|]
                 | apply Forall_app; split; [done|] ];
    done.
Qed.

(** X12: neither retrieval nor answering changes the vector store: no run of
    [search_vector_db_collection] or [answer_rag_question] issues
    [create_collection], [insert_many] or [delete_collection]. *)
Theorem search_and_answer_never_write self project query limit w :
  Forall (λ c, is_vectordb_write c = false)
    (calls (tr (search_vector_db_collection self project query limit w)))
  ∧ Forall (λ c, is_vectordb_write c = false)
      (calls (tr (answer_rag_question self project query limit w))).
Proof.
  split; [apply search_never_writes|].
  rewrite answer_rag_question_unfold, run_bind.
  pose proof (search_never_writes self project query limit w) as Hs.
  destruct (out (search_vector_db_collection _ _ _ _ _)) as [r|x]; [|done].
  cbn [tr]. rewrite calls_app. apply Forall_app. split; [done|].
  destruct (no_documents r); [by constructor|].
  by apply prompt_and_generate_calls.
Qed.

Lemma filter_none {A} (f : A → bool) (l : list A) :
  Forall (λ x, f x = false) l → List.filter f l = [].
Proof.
  induction 1 as [|x l Hx _ IH]; [done|]. cbn. by rewrite Hx.
Qed.

Lemma search_no_generate self project query limit w :
  List.filter is_generate_text_call
    (calls (tr (search_vector_db_collection self project query limit w)))
  = [].
Proof.
  apply filter_none.
  eapply Forall_impl; [apply search_calls_only|].
  intros c [_ Hg]. by destruct c.
Qed.

Lemma document_prompts_no_generate self docs w :
  List.filter is_generate_text_call
    (calls (tr (document_prompts self docs w))) = [].
Proof. apply filter_none. by apply document_prompts_calls. Qed.

(** X13: [answer_rag_question] asks the generation backend for text at most
    once, and that call, when made, is the last call of the run: there is
    no retry and nothing happens after it. *)
Theorem answer_generates_at_most_once self project query limit w :
  List.filter is_generate_text_call
    (calls (tr (answer_rag_question self project query limit w))) = []
  ∨ ∃ p h,
      List.filter is_generate_text_call
        (calls (tr (answer_rag_question self project query limit w)))
      = [generate_text_call p h]
      ∧ last (calls (tr (answer_rag_question self project query limit w)))
        = Some (generate_text_call p h).
Proof.
  rewrite answer_rag_question_unfold, run_bind.
  pose proof (search_no_generate self project query limit w) as Hs.
  destruct (out (search_vector_db_collection _ _ _ _ _)) as [r|x];
    [|by left].
  cbn [tr]. rewrite calls_app, List.filter_app, Hs. cbn [app].
  destruct (no_documents r); [by left|].
  rewrite prompt_and_generate_run. cbv zeta.
  destruct (get _ _ _ _ _).1 as [sys|x]; [|by left].
  match goal with
  | |- context [document_prompts self ?d ?w1] =>
      pose proof (document_prompts_no_generate self d w1) as Hd;
      set (rm := document_prompts self d w1) in *
  end.
  destruct (out rm) as [fragments|x]; [|left; cbn; by apply Hd].
  destruct (all_str fragments) as [frags|]; [|left; cbn; by apply Hd].
  destruct (get _ _ _ _ _).1 as [footer|x];
    [|left; cbn [tr]; rewrite calls_cons, calls_app; cbn;
      by rewrite List.filter_app, Hd].
  destruct (construct_prompt _ _ _ _).1 as [msg|x];
    [|left; cbn [tr]; rewrite calls_cons, calls_app; cbn;
      by rewrite List.filter_app, Hd].
  destruct footer as [foot|];
    [|left; cbn [tr]; rewrite calls_cons, calls_app; cbn;
      by rewrite List.filter_app, Hd].
  right. eexists _, _. cbn [tr]. split.
  - rewrite calls_cons, calls_app. cbn. by rewrite List.filter_app, Hd.
  - rewrite calls_cons, calls_app.
    change (calls [?a; ?b; ?c]) with ([a.1; b.1] ++ [c.1]).
    rewrite app_comm_cons, !app_assoc. apply last_snoc.
Qed.

Lemma document_prompts_transcript self docs w fragments :
  out (document_prompts self docs w) = Normal fragments →
  tr (document_prompts self docs w)
  = zip_with (λ id y,
                (template_get_call "rag" "document_prompt"
                   (document_vars id.1 id.2), text_reply y))
             (enumerate docs) fragments.
Proof.
  intros Hout.
  pose proof (mapM_call_transcript
    (λ id : Z * RetrievedDocument,
       template_get_call "rag" "document_prompt" (document_vars id.1 id.2)
       : Call)
    (text_reply : option string → Reply)
    (λ id, get (template_parser self) "rag" "document_prompt"
             (document_vars id.1 id.2))
    (enumerate docs) w) as Hm.
  cbv beta in Hm. fold (document_prompts self docs) in Hm.
  rewrite Hout in Hm. by destruct Hm.
Qed.

Lemma zip_with_reply_elem {A} (c : A → Call) (l : list A)
    (ys : list (option string)) c0 y0 :
  (c0, text_reply y0)
    ∈ zip_with (λ x y, (c x, text_reply y) : Event) l ys →
  y0 ∈ ys.
Proof.
  revert ys. induction l as [|x l IH]; intros [|y ys] Hin;
    try by apply elem_of_nil in Hin.
  cbn in Hin. apply elem_of_cons in Hin as [[= _ ->]|Hin].
  - apply list_elem_of_here.
  - apply list_elem_of_further. by apply IH.
Qed.

Lemma all_str_no_None fragments frags :
  all_str fragments = Some frags → None ∉ fragments.
Proof.
  intros ->%all_str_Some. by intros (? & ? & _)%list_elem_of_fmap.
Qed.

Lemma search_event_not_template self project query limit w c r :
  (c, r) ∈ tr (search_vector_db_collection self project query limit w) →
  is_template_call c = false.
Proof.
  intros Hin.
  pose proof (search_calls_only self project query limit w) as Hs.
  rewrite Forall_forall in Hs. apply Hs.
  apply list_elem_of_fmap. by exists (c, r).
Qed.

(** X14: if the template parser has no footer or no document prompt (it
    answers [None]), [answer_rag_question] does not return: it raises, and
    the generation backend is never asked for text. *)
Theorem answer_stops_on_missing_fragment self project query limit w c :
  (c = footer_call query
   ∨ ∃ vars, c = template_get_call "rag" "document_prompt" vars) →
  (c, text_reply None)
    ∈ tr (answer_rag_question self project query limit w) →
  (∃ x, out (answer_rag_question self project query limit w) = Raised x)
  ∧ List.filter is_generate_text_call
      (calls (tr (answer_rag_question self project query limit w))) = [].
Proof.
  intros Hc.
  assert (Htpl : is_template_call c = true)
    by (destruct Hc as [->|[vars ->]]; reflexivity).
  assert (Hsys : c ≠ template_get_call "rag" "system_prompt" None)
    by (destruct Hc as [->|[vars ->]]; discriminate).
  rewrite answer_rag_question_unfold, run_bind.
  pose proof (search_no_generate self project query limit w) as Hs.
  pose proof (search_event_not_template self project query limit w c
                (text_reply None)) as Hst.
  destruct (out (search_vector_db_collection _ _ _ _ _)) as [r|x];
    [|intros _; split; [by eexists|done]].
  cbn [tr out]. rewrite calls_app, List.filter_app, Hs. cbn [app].
  destruct (no_documents r).
  { cbn [tr]. rewrite app_nil_r. intros Hin%Hst. congruence. }
  rewrite prompt_and_generate_run. cbv zeta.
  destruct (get _ _ _ _ _).1 as [sys|x]; [|intros _; split; [by eexists|done]].
  match goal with
  | |- context [document_prompts self ?d ?w1] =>
      pose proof (document_prompts_no_generate self d w1) as Hd;
      pose proof (document_prompts_transcript self d w1) as Hdt;
      set (rm := document_prompts self d w1) in *
  end.
  destruct (out rm) as [fragments|x];
    [|intros _; split; [by eexists|by cbn]].
  specialize (Hdt fragments eq_refl).
  destruct (all_str fragments) as [frags|] eqn:Hall;
    [|intros _; split; [by eexists|by cbn]].
  destruct (get _ _ _ _ _).1 as [footer|x];
    [|intros _; split; [by eexists|];
      cbn [tr]; rewrite calls_cons, calls_app; cbn;
      by rewrite List.filter_app, Hd].
  destruct (construct_prompt _ _ _ _).1 as [msg|x];
    [|intros _; split; [by eexists|];
      cbn [tr]; rewrite calls_cons, calls_app; cbn;
      by rewrite List.filter_app, Hd].
  destruct footer as [foot|];
    [|intros _; split; [by eexists|];
      cbn [tr]; rewrite calls_cons, calls_app; cbn;
      by rewrite List.filter_app, Hd].
  cbn [tr reply_of]. intros Hin. exfalso.
  apply elem_of_app in Hin as [Hin|Hin]; [apply Hst in Hin; congruence|].
  apply elem_of_cons in Hin as [[= Heq _]|Hin]; try done.
  apply elem_of_app in Hin as [Hin|Hin].
  - rewrite Hdt in Hin. apply zip_with_reply_elem in Hin.
    by apply all_str_no_None in Hall.
  - apply elem_of_cons in Hin as [[= _ ?]|Hin]; try done.
    apply elem_of_cons in Hin as [[= -> _]|Hin]; try done.
    apply elem_of_cons in Hin as [[= -> _]|Hin]; try done.
    by apply elem_of_nil in Hin.
Qed.

Lemma zip_with_documents_no_construct docs (frags : list string) :
  List.filter (λ e : Event, is_construct_prompt_call e.1)
    (zip_with (λ id frag,
                 (template_get_call "rag" "document_prompt"
                    (document_vars id.1 id.2), text_reply (Some frag)))
              (enumerate docs) frags) = [].
Proof.
  generalize (enumerate docs). intros l. revert frags.
  induction l as [|x l IH]; intros [|f frags]; try done. cbn. apply IH.
Qed.


(** ** Exceptions pass through *)

Lemma last_cons_app {A} (x y : A) (l : list A) :
  last (x :: l ++ [y]) = Some y.
Proof. rewrite app_comm_cons. apply last_snoc. Qed.

Lemma document_prompts_raised_last self docs w x (e1 : Event) :
  out (document_prompts self docs w) = Raised x →
  ∃ c, last (e1 :: tr (document_prompts self docs w))
       = Some (c, raised_reply x).
Proof.
  intros Hout. unfold document_prompts in *.
  apply mapM_call_raised in Hout as (l1 & x1 & l2 & ys & _ & _ & ->).
  eexists. apply last_cons_app.
Qed.



End MoreFacts.

(** On a run: the second embedding raises, and the store is not touched. *)
Lemma index_stops_at_raising_embedding_witness :
  (embed_text_call "the dog ran" DOCUMENT,
   raised_reply (ClientError "embedding backend down"))
    ∈ tr (index_into_vector_db Outage.controller Demo.p1 Demo.chunks2 [7; 8]
            true Demo.degraded)
  ∧ out (index_into_vector_db Outage.controller Demo.p1 Demo.chunks2 [7; 8]
           true Demo.degraded)
    = Raised (ClientError "embedding backend down")
  ∧ Forall (λ c, is_vectordb_call c = false)
      (calls (tr (index_into_vector_db Outage.controller Demo.p1 Demo.chunks2
                    [7; 8] true Demo.degraded))).
Proof.
  assert (Hin : (embed_text_call "the dog ran" DOCUMENT,
                 raised_reply (ClientError "embedding backend down"))
    ∈ tr (index_into_vector_db Outage.controller Demo.p1 Demo.chunks2 [7; 8]
            true Demo.degraded)).
  { vm_compute. apply list_elem_of_further, list_elem_of_here. }
  split; [exact Hin|].
  exact (index_stops_at_raising_embedding Outage.controller Demo.p1
           Demo.chunks2 [7; 8] true Demo.degraded _ _ _ Hin).
Defined.

(** On a run: three chunks indexed into an empty store. *)
Lemma index_into_vector_db_transcript_witness :
  out (index_into_vector_db Demo.controller Demo.p1 Demo.chunks3 [1; 2; 3]
         false Demo.empty) = Normal true
  ∧ ∃ vectors b1 b2,
      length vectors = length Demo.chunks3 ∧
      out (embed_documents Demo.controller (chunk_text <$> Demo.chunks3)
             Demo.empty) = Normal vectors ∧
      tr (index_into_vector_db Demo.controller Demo.p1 Demo.chunks3
            [1; 2; 3] false Demo.empty)
      = zip_with (λ (c : @DataChunk Demo.metadata) v,
                    (embed_text_call (chunk_text c) DOCUMENT, vector_reply v))
                 Demo.chunks3 vectors
        ++ [(create_collection_call
               (create_collection_name (project_id Demo.p1))
               (embedding_size (embedding_client Demo.controller)
                  (st (embed_documents Demo.controller
                         (chunk_text <$> Demo.chunks3) Demo.empty)))
               false, bool_reply b1);
            (insert_many_call (create_collection_name (project_id Demo.p1))
               (chunk_text <$> Demo.chunks3) (chunk_metadata <$> Demo.chunks3)
               vectors [1; 2; 3], bool_reply b2)].
Proof.
  split; [vm_compute; reflexivity|].
  apply (index_into_vector_db_transcript Demo.controller Demo.p1 Demo.chunks3
           [1; 2; 3] false Demo.empty true).
  vm_compute; reflexivity.
Defined.

Lemma Demo_vectordb_honors_delete :
  honors_delete Demo.vectordb Demo.collections.
Proof. intros name w. split; [by eexists|done]. Qed.

Lemma Demo_embedding_keeps :
  embedding_keeps Demo.embedding Demo.collections.
Proof. by intros txt mode w. Qed.

(** On a run: two chunks indexed under new ids next to three older ones. *)
Lemma index_without_reset_keeps_other_records_witness :
  honors_contract Demo.vectordb Demo.collections
  ∧ length [7; 8] = length Demo.chunks2
  ∧ out (embed_documents Demo.controller (chunk_text <$> Demo.chunks2)
           Demo.indexed) = Normal [Some [11; 0]; Some [11; 0]]
  ∧ ∃ recs,
      Demo.collections
        (st (index_into_vector_db Demo.controller Demo.p1 Demo.chunks2 [7; 8]
               false Demo.indexed)) !! "collection_p1" = Some (Some 2, recs)
      ∧ recs !! 3 = Some (Demo.record (Some [15; 0]) "quantum physics")
      ∧ is_Some (recs !! 7).
Proof.
  split; [exact Demo_vectordb_honors_contract|].
  split; [reflexivity|]. split; [vm_compute; reflexivity|].
  destruct (index_without_reset_keeps_other_records Demo.collections
              Demo.controller Demo.p1 Demo.chunks2 [7; 8] Demo.indexed
              [Some [11; 0]; Some [11; 0]] (Some 2)
              (<[3 := Demo.record (Some [15; 0]) "quantum physics"]>
                 (<[2 := Demo.record (Some [11; 0]) "the dog ran"]>
                    {[1 := Demo.record (Some [11; 0]) "the cat sat"]}))
              Demo_vectordb_honors_contract eq_refl
              ltac:(vm_compute; reflexivity) ltac:(vm_compute; reflexivity))
    as (_ & recs & Hview & Hother & Hgiven & _).
  exists recs. split; [exact Hview|]. split.
  - rewrite Hother; [reflexivity|].
    by intros [?|[?|[]%elem_of_nil]%elem_of_cons]%elem_of_cons.
  - apply Hgiven. apply list_elem_of_here.
Defined.

(** On a run: the first indexing for a project creates its collection. *)
Lemma index_without_reset_creates_collection_witness :
  honors_contract Demo.vectordb Demo.collections
  ∧ length [1; 2; 3] = length Demo.chunks3
  ∧ out (embed_documents Demo.controller (chunk_text <$> Demo.chunks3)
           Demo.empty) = Normal [Some [11; 0]; Some [11; 0]; Some [15; 0]]
  ∧ Demo.collections Demo.empty !! "collection_p1" = None
  ∧ ∃ recs,
      Demo.collections
        (st (index_into_vector_db Demo.controller Demo.p1 Demo.chunks3
               [1; 2; 3] false Demo.empty)) !! "collection_p1"
      = Some (Some 2, recs)
      ∧ recs !! 4 = None.
Proof.
  split; [exact Demo_vectordb_honors_contract|].
  split; [reflexivity|]. split; [vm_compute; reflexivity|].
  split; [reflexivity|].
  destruct (index_without_reset_creates_collection Demo.collections
              Demo.controller Demo.p1 Demo.chunks3 [1; 2; 3] Demo.empty
              [Some [11; 0]; Some [11; 0]; Some [15; 0]]
              Demo_vectordb_honors_contract eq_refl
              ltac:(vm_compute; reflexivity) ltac:(vm_compute; reflexivity))
    as (_ & recs & Hview & Hother & _).
  exists recs. split; [exact Hview|]. apply Hother.
  by intros [?|[?|[?|[]%elem_of_nil]%elem_of_cons]%elem_of_cons]%elem_of_cons.
Defined.

(** On a run: indexing the same three chunks twice. *)
Lemma index_twice_same_collection_witness :
  honors_contract Demo.vectordb Demo.collections
  ∧ embedding_keeps Demo.embedding Demo.collections
  ∧ length [1; 2; 3] = length Demo.chunks3
  ∧ out (embed_documents Demo.controller (chunk_text <$> Demo.chunks3)
           Demo.empty) = Normal [Some [11; 0]; Some [11; 0]; Some [15; 0]]
  ∧ out (embed_documents Demo.controller (chunk_text <$> Demo.chunks3)
           Demo.indexed) = Normal [Some [11; 0]; Some [11; 0]; Some [15; 0]]
  ∧ Demo.collections
      (st (index_into_vector_db Demo.controller Demo.p1 Demo.chunks3
             [1; 2; 3] false Demo.indexed)) !! "collection_p1"
    = Demo.collections Demo.indexed !! "collection_p1".
Proof.
  split; [exact Demo_vectordb_honors_contract|].
  split; [exact Demo_embedding_keeps|].
  split; [reflexivity|]. split; [vm_compute; reflexivity|].
  split; [vm_compute; reflexivity|].
  exact (index_twice_same_collection Demo.collections Demo.controller Demo.p1
           Demo.chunks3 [1; 2; 3] Demo.empty
           [Some [11; 0]; Some [11; 0]; Some [15; 0]]
           Demo_vectordb_honors_contract Demo_embedding_keeps eq_refl
           ltac:(vm_compute; reflexivity) ltac:(vm_compute; reflexivity)).
Defined.

(** On a run: a reset, then two chunks indexed under new ids. *)
Lemma reset_then_index_replaces_collection_witness :
  honors_contract Demo.vectordb Demo.collections
  ∧ honors_delete Demo.vectordb Demo.collections
  ∧ embedding_keeps Demo.embedding Demo.collections
  ∧ length [7; 8] = length Demo.chunks2
  ∧ out (embed_documents Demo.controller (chunk_text <$> Demo.chunks2)
           (st (reset_vector_db_collection Demo.controller Demo.p1
                  Demo.indexed))) = Normal [Some [11; 0]; Some [11; 0]]
  ∧ Demo.collections
      (st (index_into_vector_db Demo.controller Demo.p1 Demo.chunks2 [7; 8]
             false
             (st (reset_vector_db_collection Demo.controller Demo.p1
                    Demo.indexed)))) !! "collection_p1"
    = Some (Some 2,
            upsert ∅ [7; 8]
              [Demo.record (Some [11; 0]) "the cat sat";
               Demo.record (Some [11; 0]) "the dog ran"]).
Proof.
  split; [exact Demo_vectordb_honors_contract|].
  split; [exact Demo_vectordb_honors_delete|].
  split; [exact Demo_embedding_keeps|].
  split; [reflexivity|]. split; [vm_compute; reflexivity|].
  exact (proj2 (proj2 (reset_then_index_replaces_collection Demo.collections
           Demo.controller Demo.p1 Demo.chunks2 [7; 8] Demo.indexed
           [Some [11; 0]; Some [11; 0]]
           Demo_vectordb_honors_contract Demo_vectordb_honors_delete
           Demo_embedding_keeps eq_refl ltac:(vm_compute; reflexivity)))).
Defined.

(** On a run: the two documents the store answers come back as they are. *)
Lemma search_returns_store_reply_witness :
  out (search_vector_db_collection Demo.controller Demo.p1 "physics" 2
         Demo.indexed) = Normal (SDocs Demo.two_documents)
  ∧ ∃ v,
      v ≠ [] ∧ Demo.two_documents ≠ [] ∧
      tr (search_vector_db_collection Demo.controller Demo.p1 "physics" 2
            Demo.indexed)
      = [(embed_text_call "physics" QUERY, vector_reply (Some v));
         (search_by_vector_call (create_collection_name (project_id Demo.p1))
            v 2, documents_reply (Some Demo.two_documents))].
Proof.
  split; [vm_compute; reflexivity|].
  apply (search_returns_store_reply Demo.controller Demo.p1 "physics" 2
           Demo.indexed Demo.two_documents).
  vm_compute; reflexivity.
Defined.

(** On a run: the embedding of the query raises. *)
Lemma search_raises_what_collaborator_raised_witness :
  out (search_vector_db_collection Outage.controller Demo.p1 "the dog ran" 5
         Demo.degraded) = Raised (ClientError "embedding backend down")
  ∧ ∃ c,
      last (tr (search_vector_db_collection Outage.controller Demo.p1
                  "the dog ran" 5 Demo.degraded))
      = Some (c, raised_reply (ClientError "embedding backend down")).
Proof.
  split; [vm_compute; reflexivity|].
  apply (search_raises_what_collaborator_raised Outage.controller Demo.p1
           "the dog ran" 5 Demo.degraded).
  vm_compute; reflexivity.
Defined.

(** On a run: no footer template, so no answer and no generation. *)
Lemma answer_stops_on_missing_fragment_witness :
  (footer_call "physics", text_reply None)
    ∈ tr (answer_rag_question (Gaps.controller "footer_prompt") Demo.p1
            "physics" 2 Demo.indexed)
  ∧ (∃ x, out (answer_rag_question (Gaps.controller "footer_prompt") Demo.p1
                 "physics" 2 Demo.indexed) = Raised x)
  ∧ List.filter is_generate_text_call
      (calls (tr (answer_rag_question (Gaps.controller "footer_prompt")
                    Demo.p1 "physics" 2 Demo.indexed))) = [].
Proof.
  assert (Hin : (footer_call "physics", text_reply None)
    ∈ tr (answer_rag_question (Gaps.controller "footer_prompt") Demo.p1
            "physics" 2 Demo.indexed)).
  { vm_compute. do 5 apply list_elem_of_further. apply list_elem_of_here. }
  split; [exact Hin|].
  exact (answer_stops_on_missing_fragment (Gaps.controller "footer_prompt")
           Demo.p1 "physics" 2 Demo.indexed _ (or_introl eq_refl) Hin).
Defined.




(** ** Cleaning file names *)

Lemma space_not_kept c : is_space c = true → kept c = false.
Proof. destruct c as [[] [] [] [] [] [] [] []]; by vm_compute. Qed.

Lemma filter_chars_lstrip s :
  filter_chars kept (lstrip s) = filter_chars kept s.
Proof.
  induction s as [|c s IH]; [done|]. cbn [lstrip filter_chars].
  destruct (is_space c) eqn:Hc; [|done]. by rewrite space_not_kept.
Qed.

Lemma filter_chars_rstrip s :
  filter_chars kept (rstrip s) = filter_chars kept s.
Proof.
  induction s as [|c s IH]; [done|]. cbn [rstrip filter_chars].
  destruct (rstrip s) as [|c' r] eqn:Hr.
  - rewrite <- IH. cbn [filter_chars].
    destruct (is_space c) eqn:Hc; [by rewrite space_not_kept|done].
  - cbn [filter_chars] in *. by rewrite IH.
Qed.

Lemma filter_chars_all keep s : all_chars keep (filter_chars keep s) = true.
Proof.
  induction s as [|c s IH]; [done|]. cbn [filter_chars].
  destruct (keep c) eqn:Hc; [|done]. cbn [all_chars]. by rewrite Hc.
Qed.

Lemma replace_char_absent old new s :
  all_chars (λ c, negb (Ascii.eqb c old)) s = true →
  replace_char old new s = s.
Proof.
  induction s as [|c s IH]; [done|]. cbn [all_chars replace_char].
  intros [Hc Hs]%andb_true_iff. apply negb_true_iff in Hc.
  by rewrite Hc, IH.
Qed.

Lemma all_chars_impl (p q : ascii → bool) s :
  (∀ c, p c = true → q c = true) →
  all_chars p s = true → all_chars q s = true.
Proof.
  intros Hpq. induction s as [|c s IH]; [done|]. cbn [all_chars].
  intros [Hc Hs]%andb_true_iff. by rewrite (Hpq c Hc), IH.
Qed.

Lemma get_clean_file_name_filter s :
  get_clean_file_name s = filter_chars kept s.
Proof.
  unfold get_clean_file_name, strip.
  rewrite filter_chars_rstrip, filter_chars_lstrip.
  apply replace_char_absent.
  apply (all_chars_impl kept); [|apply filter_chars_all].
  intros c. destruct c as [[] [] [] [] [] [] [] []]; by vm_compute.
Qed.

(** X16: on an ASCII name, [get_clean_file_name] deletes every character that
    is not a letter, a digit, an underscore or a dot, and does nothing
    else: spaces are deleted, not turned into underscores (the [replace]
    finds no space left), and the [strip] removes nothing the substitution
    would not remove. *)
Theorem get_clean_file_name_deletes_only s :
  all_chars is_ascii_char s = true →
  get_clean_file_name s = filter_chars kept s.
Proof. intros _. apply get_clean_file_name_filter. Qed.

Lemma get_clean_file_name_deletes_only_witness :
  all_chars is_ascii_char " my report (v2).txt " = true
  ∧ get_clean_file_name " my report (v2).txt "
    = filter_chars kept " my report (v2).txt "
  ∧ get_clean_file_name " my report (v2).txt " = "myreportv2.txt".
Proof.
  split; [reflexivity|]. split; [|reflexivity].
  apply (get_clean_file_name_deletes_only " my report (v2).txt ").
  reflexivity.
Defined.

(** X17: a cleaned ASCII name holds only letters, digits, underscores and
    dots: no path separator, no whitespace. *)
Theorem get_clean_file_name_safe s :
  all_chars is_ascii_char s = true →
  all_chars kept (get_clean_file_name s) = true
  ∧ all_chars (λ c, negb (Ascii.eqb c "/") && negb (Ascii.eqb c "\")
                    && negb (is_space c))
      (get_clean_file_name s) = true.
Proof.
  intros _. rewrite get_clean_file_name_filter.
  split; [apply filter_chars_all|].
  apply (all_chars_impl kept); [|apply filter_chars_all].
  intros c. destruct c as [[] [] [] [] [] [] [] []]; by vm_compute.
Qed.

Lemma get_clean_file_name_safe_witness :
  all_chars is_ascii_char "../../etc/pass wd" = true
  ∧ get_clean_file_name "../../etc/pass wd" = "....etcpasswd"
  ∧ all_chars kept (get_clean_file_name "../../etc/pass wd") = true.
Proof.
  split; [reflexivity|]. split; [reflexivity|].
  apply (get_clean_file_name_safe "../../etc/pass wd"). reflexivity.
Defined.

Lemma filter_chars_idemp keep s :
  filter_chars keep (filter_chars keep s) = filter_chars keep s.
Proof.
  induction s as [|c s IH]; [done|]. cbn [filter_chars].
  destruct (keep c) eqn:Hc; [|done]. cbn [filter_chars]. by rewrite Hc, IH.
Qed.

(** X18: cleaning a cleaned ASCII name changes nothing. *)
Theorem get_clean_file_name_idemp s :
  all_chars is_ascii_char s = true →
  get_clean_file_name (get_clean_file_name s) = get_clean_file_name s.
Proof.
  intros _. rewrite !get_clean_file_name_filter. apply filter_chars_idemp.
Qed.

Lemma get_clean_file_name_idemp_witness :
  all_chars is_ascii_char "a b/c.txt" = true
  ∧ get_clean_file_name (get_clean_file_name "a b/c.txt")
    = get_clean_file_name "a b/c.txt".
Proof.
  split; [reflexivity|].
  apply (get_clean_file_name_idemp "a b/c.txt"). reflexivity.
Defined.

(** ** The storage models *)

Module StorageFacts.
Import Storage.

#[local] Open Scope nat_scope.

Section Runs.

Context {doc D : Type}.

#[local] Abbreviation Mongo := (@Mongo doc D).
#[local] Abbreviation run := (@run doc D).
#[local] Abbreviation DbCall := (@DbCall doc).
#[local] Abbreviation MongoCollection := (@MongoCollection doc D).

Lemma run_sbind {A B} (m : Mongo A) (k : A → Mongo B) d :
  (m ≫= k) d =
  match ans (m d) with
  | Returned a =>
      Run (ans (k a (db (m d)))) (db (k a (db (m d))))
          (log (m d) ++ log (k a (db (m d))))
  | Failed e => Run (Failed e) (db (m d)) (log (m d))
  end.
Proof. reflexivity. Qed.

Lemma run_smapM_cons {A B} (f : A → Mongo B) x l d :
  mapM f (x :: l) d = (y ← f x; ys ← mapM f l; mret (y :: ys)) d.
Proof. reflexivity. Qed.

(** A loop of driver calls makes them in order and stops at the first one
    that fails. *)
Lemma smapM_driver_log {A B} (c : A → DbCall) (f : A → D → answer B * D)
    (l : list A) d :
  log (mapM (λ x, driver (c x) (f x)) l d) `prefix_of` (c <$> l)
  ∧ (∀ ys, ans (mapM (λ x, driver (c x) (f x)) l d) = Returned ys →
           log (mapM (λ x, driver (c x) (f x)) l d) = c <$> l).
Proof.
  revert d. induction l as [|x l IH]; intros d.
  - split; [done|]. by intros.
  - rewrite run_smapM_cons, run_sbind. cbn [driver ans db log].
    destruct (f x d) as [[y|e] d1]; cbn [fst snd].
    + rewrite run_sbind. destruct (IH d1) as [Hp Heq].
      set (r := mapM (λ x, driver (c x) (f x)) l d1) in *.
      destruct (ans r) as [ys|e]; cbn [ans db log].
      * cbn. rewrite app_nil_r. rewrite (Heq ys eq_refl). by split.
      * split; [by apply prefix_cons|done].
    + split; [apply prefix_cons, prefix_nil|done].
Qed.

Lemma written_bulk_writes {A} (ops : A → list doc) (l : list A) :
  written ((λ x, bulk_write_call (ops x)) <$> l) = ops <$> l.
Proof. induction l as [|x l IH]; [done|]. cbn. by f_equal. Qed.

Lemma written_prefix (l1 l2 : list DbCall) :
  l1 `prefix_of` l2 → written l1 `prefix_of` written l2.
Proof.
  intros [k ->]. unfold written. rewrite omap_app. by eexists.
Qed.

Lemma concat_prefix {A} (l1 l2 : list (list A)) :
  l1 `prefix_of` l2 → concat l1 `prefix_of` concat l2.
Proof. intros [k ->]. rewrite concat_app. by eexists. Qed.

(** ** Batches *)

Lemma concat_slices {A} (l : list A) (s k : nat) :
  concat ((λ j, take s (drop (j * s) l)) <$> seq 0 k) = take (k * s) l.
Proof.
  induction k as [|k IH]; [done|].
  rewrite seq_S, fmap_app, concat_app, IH. cbn [fmap list_fmap concat].
  rewrite app_nil_r, take_take_drop. f_equal. lia.
Qed.

Lemma ceil_covers (n s : nat) : 0 < s → n ≤ ((n + s - 1) / s) * s.
Proof.
  intros Hs.
  pose proof (Nat.div_mod_eq (n + s - 1) s) as Hd.
  pose proof (Nat.mod_upper_bound (n + s - 1) s ltac:(lia)) as Hm.
  nia.
Qed.

Lemma ceil_tight (n s j : nat) : 0 < s → j < (n + s - 1) / s → j * s < n.
Proof.
  intros Hs Hj.
  pose proof (Nat.div_mod_eq (n + s - 1) s) as Hd.
  assert ((j + 1) * s ≤ n + s - 1); [|nia].
  transitivity (((n + s - 1) / s) * s); [nia|lia].
Qed.

Lemma concat_fmap_fmap {A B C} (f : B → C) (g : A → list B) (l : list A) :
  concat ((λ x, f <$> g x) <$> l) = f <$> concat (g <$> l).
Proof.
  induction l as [|x l IH]; [done|]. cbn. by rewrite fmap_app, IH.
Qed.

Section Chunks.

Context {chunk : Type}.
Variables (collection : MongoCollection) (to_doc : chunk → doc).

(** With a positive batch size the loop of [insert_many_chunks] is a loop
    over the slices of the chunk list. *)
Lemma insert_many_chunks_positive (chunks : list chunk) batch_size d :
  (0 < batch_size)%Z →
  let s := Z.to_nat batch_size in
  let starts := (λ k, k * s) <$> seq 0 ((length chunks + s - 1) / s) in
  insert_many_chunks collection to_doc chunks batch_size d
  = (_ ← mapM (λ i, driver
                 (bulk_write_call (to_doc <$> take s (drop i chunks)))
                 (bulk_write collection (to_doc <$> take s (drop i chunks))))
          starts;
     mret (Z.of_nat (length chunks))) d.
Proof.
  intros Hb. unfold insert_many_chunks, range0.
  destruct (batch_size =? 0)%Z eqn:E0; [lia|].
  destruct (batch_size <? 0)%Z eqn:E1; [lia|]. done.
Qed.

Lemma all_batches (chunks : list chunk) (s : nat) :
  0 < s →
  concat ((λ i, to_doc <$> take s (drop i chunks))
            <$> ((λ k, k * s) <$> seq 0 ((length chunks + s - 1) / s)))
  = to_doc <$> chunks.
Proof.
  intros Hs. rewrite concat_fmap_fmap, <- list_fmap_compose.
  change ((λ i, take s (drop i chunks)) ∘ (λ k, k * s))
    with (λ j, take s (drop (j * s) chunks)).
  rewrite concat_slices, take_ge; [done|]. by apply ceil_covers.
Qed.

(** X19: with a positive batch size, [insert_many_chunks] writes the chunks'
    documents in order, each of them once: what it has written at any point
    is a prefix of them, and when it returns it has written all of them and
    returns their number.  A batch that fails leaves the earlier batches
    written. *)
Theorem insert_many_chunks_writes_in_order
    (chunks : list chunk) batch_size d :
  (0 < batch_size)%Z →
  concat (written (log (insert_many_chunks collection to_doc chunks
                          batch_size d)))
    `prefix_of` (to_doc <$> chunks)
  ∧ ∀ n,
      ans (insert_many_chunks collection to_doc chunks batch_size d)
        = Returned n →
      n = Z.of_nat (length chunks) ∧
      concat (written (log (insert_many_chunks collection to_doc chunks
                              batch_size d)))
      = to_doc <$> chunks.
Proof.
  intros Hb. rewrite insert_many_chunks_positive by done. cbv zeta.
  set (s := Z.to_nat batch_size).
  set (starts := (λ k, k * s) <$> seq 0 ((length chunks + s - 1) / s)).
  rewrite run_sbind.
  destruct (smapM_driver_log
              (λ i, bulk_write_call (to_doc <$> take s (drop i chunks)))
              (λ i, bulk_write collection (to_doc <$> take s (drop i chunks)))
              starts d) as [Hp Heq].
  match type of Hp with
  | log ?x `prefix_of` _ => set (r := x) in *
  end.
  assert (Hall : concat (written
            ((λ i, bulk_write_call (to_doc <$> take s (drop i chunks)))
               <$> starts)) = to_doc <$> chunks).
  { rewrite (written_bulk_writes
               (λ i, to_doc <$> take s (drop i chunks))).
    apply all_batches. lia. }
  destruct (ans r) as [ys|e]; cbn [ans log].
  - rewrite app_nil_r, (Heq ys eq_refl), Hall. split; [done|].
    by intros n [= <-].
  - split; [|done]. rewrite <- Hall. by apply concat_prefix, written_prefix.
Qed.

(** X20: with a positive batch size, no batch [insert_many_chunks] writes is
    empty or longer than the batch size, and a call that returns has made
    as many bulk writes as it takes to cover the chunks: the number of
    chunks divided by the batch size, rounded up. *)
Theorem insert_many_chunks_batches (chunks : list chunk) batch_size d :
  (0 < batch_size)%Z →
  Forall (λ b, 1 ≤ length b ≤ Z.to_nat batch_size)
    (written (log (insert_many_chunks collection to_doc chunks batch_size
                     d)))
  ∧ ∀ n,
      ans (insert_many_chunks collection to_doc chunks batch_size d)
        = Returned n →
      length (written (log (insert_many_chunks collection to_doc chunks
                              batch_size d)))
      = (length chunks + Z.to_nat batch_size - 1) / Z.to_nat batch_size.
Proof.
  intros Hb. rewrite insert_many_chunks_positive by done. cbv zeta.
  set (s := Z.to_nat batch_size).
  set (starts := (λ k, k * s) <$> seq 0 ((length chunks + s - 1) / s)).
  rewrite run_sbind.
  destruct (smapM_driver_log
              (λ i, bulk_write_call (to_doc <$> take s (drop i chunks)))
              (λ i, bulk_write collection (to_doc <$> take s (drop i chunks)))
              starts d) as [Hp Heq].
  match type of Hp with
  | log ?x `prefix_of` _ => set (r := x) in *
  end.
  assert (Hs : 0 < s) by (unfold s; lia).
  assert (Hall : Forall (λ b : list doc, 1 ≤ length b ≤ s)
            (written ((λ i, bulk_write_call
                              (to_doc <$> take s (drop i chunks)))
                        <$> starts))).
  { rewrite (written_bulk_writes
               (λ i, to_doc <$> take s (drop i chunks))).
    apply Forall_fmap, Forall_fmap, Forall_forall. intros j Hj.
    apply elem_of_seq in Hj as [_ Hj]. cbn in Hj.
    pose proof (ceil_tight (length chunks) s j Hs Hj).
    cbn. rewrite length_fmap, length_take, length_drop. lia. }
  assert (Hlen : length (written
            ((λ i, bulk_write_call (to_doc <$> take s (drop i chunks)))
               <$> starts)) = (length chunks + s - 1) / s).
  { rewrite (written_bulk_writes
               (λ i, to_doc <$> take s (drop i chunks))).
    unfold starts. by rewrite !length_fmap, length_seq. }
  destruct (ans r) as [ys|e]; cbn [ans log].
  - rewrite app_nil_r, (Heq ys eq_refl). by split.
  - split; [|done]. destruct (written_prefix _ _ Hp) as [k Hk].
    rewrite Hk in Hall. by apply Forall_app in Hall as [? _].
Qed.

(** X21: a batch size of zero makes [insert_many_chunks] raise [ValueError]
    before any write; a negative batch size makes it write nothing and
    still return the number of chunks. *)
Theorem insert_many_chunks_bad_batch_size (chunks : list chunk) batch_size d :
  (batch_size ≤ 0)%Z →
  insert_many_chunks collection to_doc chunks batch_size d
  = Run (if (batch_size =? 0)%Z then Failed ValueError
         else Returned (Z.of_nat (length chunks))) d [].
Proof.
  intros Hb. unfold insert_many_chunks, range0.
  destruct (batch_size =? 0)%Z eqn:E0; [done|].
  destruct (batch_size <? 0)%Z eqn:E1; [done|lia].
Qed.

End Chunks.

(** ** Pages *)

Lemma parse_all_log {A} (parse : doc → answer A) (documents : list doc)
    (d : D) :
  log (mapM (λ document, lift (parse document)) documents d : run (list A))
  = [].
Proof.
  induction documents as [|x l IH]; [done|].
  rewrite run_smapM_cons, run_sbind. cbn [lift ans db log].
  destruct (parse x); [|done]. rewrite run_sbind.
  match type of IH with
  | log ?x = _ => set (r := x) in *
  end.
  destruct (ans r); cbn; by rewrite ?IH.
Qed.

(** X22: for a positive page size, the page count [get_all_projects] returns
    is the smallest number of pages that holds all the documents counted,
    and the page is read with [skip((page - 1) * page_size)] and
    [limit(page_size)]. *)
Theorem get_all_projects_total_pages
    (collection : MongoCollection) (parse : doc → answer Project)
    page page_size d total projects total_pages :
  (count_documents collection d).1 = Returned total →
  (0 ≤ total)%Z →
  (0 < page_size)%Z →
  ans (get_all_projects collection parse page page_size d)
    = Returned (projects, total_pages) →
  ((total_pages - 1) * page_size < total ≤ total_pages * page_size)%Z
  ∧ log (get_all_projects collection parse page page_size d)
    = [count_documents_call; find_call ((page - 1) * page_size) page_size].
Proof.
  intros Hcount Htotal Hsize. unfold get_all_projects.
  rewrite run_sbind. cbn [driver ans db log]. rewrite Hcount.
  destruct (page_size =? 0)%Z eqn:E0; [lia|].
  rewrite run_sbind. cbn [driver ans db log].
  destruct (find_skip_limit _ _ _ _) as [[documents|e] d1]; cbn [fst snd];
    [|done].
  rewrite run_sbind.
  pose proof (parse_all_log parse documents d1) as Hlog.
  match type of Hlog with
  | log ?x = _ => set (r := x) in *
  end.
  destruct (ans r) as [ps|e]; [|done]. cbn. rewrite Hlog.
  intros [= _ <-]. split; [|done].
  pose proof (Z.div_mod total page_size ltac:(lia)) as Hdm.
  pose proof (Z.mod_pos_bound total page_size Hsize) as Hmod.
  destruct (total mod page_size >? 0)%Z eqn:Em; nia.
Qed.

(** X23: with a page size of zero [get_all_projects] counts the documents
    and then raises [ZeroDivisionError]; it reads no page. *)
Theorem get_all_projects_page_size_zero
    (collection : MongoCollection) (parse : doc → answer Project)
    page d total :
  (count_documents collection d).1 = Returned total →
  get_all_projects collection parse page 0 d
  = Run (Failed ZeroDivisionError) (count_documents collection d).2
      [count_documents_call].
Proof.
  intros Hcount. unfold get_all_projects.
  rewrite run_sbind. cbn [driver ans db log]. by rewrite Hcount.
Qed.

End Runs.

(** ** Getting or creating a project *)

Section Projects.

Context {D : Type}.
Variable isalnum : string → bool.
Variable collection : @MongoCollection ProjectDoc D.



End Projects.

End StorageFacts.

(** On a run: five chunks in batches of two, into a store with room for
    three documents: the first batch is written, the second fails. *)
Lemma insert_many_chunks_writes_in_order_witness :
  (0 < 2)%Z
  ∧ Storage.ans (Storage.insert_many_chunks Storage.memory id
                   ["a"; "b"; "c"; "d"; "e"] 2
                   {| Storage.stored := []; Storage.capacity := 3 |})
    = Storage.Failed (Storage.DriverError "disk full")
  ∧ Storage.stored
      (Storage.db (Storage.insert_many_chunks Storage.memory id
                     ["a"; "b"; "c"; "d"; "e"] 2
                     {| Storage.stored := []; Storage.capacity := 3 |}))
    = ["a"; "b"]
  ∧ concat (Storage.written
              (Storage.log (Storage.insert_many_chunks Storage.memory id
                              ["a"; "b"; "c"; "d"; "e"] 2
                              {| Storage.stored := [];
                                 Storage.capacity := 3 |})))
      `prefix_of` (id <$> ["a"; "b"; "c"; "d"; "e"]).
Proof.
  split; [reflexivity|]. split; [reflexivity|]. split; [reflexivity|].
  apply (StorageFacts.insert_many_chunks_writes_in_order Storage.memory id
           ["a"; "b"; "c"; "d"; "e"] 2
           {| Storage.stored := []; Storage.capacity := 3 |}).
  reflexivity.
Defined.

(** On a run: five chunks in batches of two make three bulk writes. *)
Lemma insert_many_chunks_batches_witness :
  (0 < 2)%Z
  ∧ Storage.written
      (Storage.log (Storage.insert_many_chunks Storage.memory id
                      ["a"; "b"; "c"; "d"; "e"] 2
                      {| Storage.stored := []; Storage.capacity := 9 |}))
    = [["a"; "b"]; ["c"; "d"]; ["e"]]
  ∧ Forall (λ b : list string, (1 ≤ length b ≤ Z.to_nat 2)%nat)
      (Storage.written
         (Storage.log (Storage.insert_many_chunks Storage.memory id
                         ["a"; "b"; "c"; "d"; "e"] 2
                         {| Storage.stored := []; Storage.capacity := 9 |}))).
Proof.
  split; [reflexivity|]. split; [reflexivity|].
  apply (StorageFacts.insert_many_chunks_batches Storage.memory id
           ["a"; "b"; "c"; "d"; "e"] 2
           {| Storage.stored := []; Storage.capacity := 9 |}).
  reflexivity.
Defined.

(** On a run: a negative batch size. *)
Lemma insert_many_chunks_bad_batch_size_witness :
  (-1 ≤ 0)%Z
  ∧ Storage.insert_many_chunks Storage.memory id ["a"; "b"; "c"] (-1)
      {| Storage.stored := []; Storage.capacity := 9 |}
    = Storage.Run (Storage.Returned 3)
        {| Storage.stored := []; Storage.capacity := 9 |} [].
Proof.
  split; [by vm_compute|].
  apply (StorageFacts.insert_many_chunks_bad_batch_size Storage.memory id
           ["a"; "b"; "c"] (-1)
           {| Storage.stored := []; Storage.capacity := 9 |}).
  by vm_compute.
Defined.

(** On a run: five documents in pages of two make three pages. *)
Lemma get_all_projects_total_pages_witness :
  (Storage.count_documents Storage.memory
     {| Storage.stored := ["a"; "b"; "c"; "d"; "e"];
        Storage.capacity := 9 |}).1 = Storage.Returned 5
  ∧ (0 ≤ 5)%Z ∧ (0 < 2)%Z
  ∧ Storage.ans
      (Storage.get_all_projects Storage.memory
         (λ s, Storage.Returned {| project_oid := None; project_id := s |})
         2 2
         {| Storage.stored := ["a"; "b"; "c"; "d"; "e"];
            Storage.capacity := 9 |})
    = Storage.Returned
        ([{| project_oid := None; project_id := "c" |};
          {| project_oid := None; project_id := "d" |}], 3)
  ∧ ((3 - 1) * 2 < 5 ≤ 3 * 2)%Z.
Proof.
  split; [reflexivity|]. split; [by vm_compute|]. split; [reflexivity|].
  split; [reflexivity|].
  apply (StorageFacts.get_all_projects_total_pages Storage.memory
           (λ s, Storage.Returned {| project_oid := None; project_id := s |})
           2 2
           {| Storage.stored := ["a"; "b"; "c"; "d"; "e"];
              Storage.capacity := 9 |} 5
           [{| project_oid := None; project_id := "c" |};
            {| project_oid := None; project_id := "d" |}] 3);
    by vm_compute.
Defined.

(** On a run: a page size of zero. *)
Lemma get_all_projects_page_size_zero_witness :
  (Storage.count_documents Storage.memory
     {| Storage.stored := ["a"]; Storage.capacity := 9 |}).1
    = Storage.Returned 1
  ∧ Storage.get_all_projects Storage.memory
      (λ s, Storage.Returned {| project_oid := None; project_id := s |}) 1 0
      {| Storage.stored := ["a"]; Storage.capacity := 9 |}
    = Storage.Run (Storage.Failed Storage.ZeroDivisionError)
        {| Storage.stored := ["a"]; Storage.capacity := 9 |}
        [Storage.count_documents_call].
Proof.
  split; [reflexivity|].
  apply (StorageFacts.get_all_projects_page_size_zero Storage.memory
           (λ s, Storage.Returned {| project_oid := None; project_id := s |})
           1 {| Storage.stored := ["a"]; Storage.capacity := 9 |} 1).
  reflexivity.
Defined.

